(** * Coordinatore: trade-intent executor and scan pipeline

    A shallow embedding of [executor.py] (module [Executor]) and of
    [main_before_trade_intent.py] (module [Coordinator]).

    Numbers.  Python's [float] is the IEEE 754 double.  Module
    [Binary64] has the functions whose result depends on that
    arithmetic (the position sizer, the price expression, the risk veto
    and the ranking) on doubles, and what is proved about the values
    they compute is proved there, through the specification of the
    format in the standard library.  Modules [Executor] and
    [Coordinator] embed the two files whole, for the order of their
    steps and their effects (database rows, log, requests, uuids, what a
    failure leaves behind); there a number is carried as an exact
    rational ([Q]), which does not model rounding, and equations that
    hold up to normalisation of a fraction are stated with [==]
    ([Qeq]).

    Failure.  A Python call either returns a value or raises; this is
    the type [py A].  Stateful code ([process_trade_intent]) threads a
    [world] (database tables, log, outbound requests, uuid counter)
    through a state-and-exception monad, in the order the source runs
    its statements. *)

From Stdlib Require Import QArith Qround Qpower Lqa Lia ZArith Bool Floats.
From Stdlib Require Import Ascii String Permutation Sorted.
From stdpp Require Import gmap strings list pretty.

Local Open Scope Q_scope.
Local Open Scope string_scope.

(** ** Python values shared by both files *)

Inductive exn : Type :=
| ValueError (msg : string)
| RuntimeError (msg : string)
| HTTPError (msg : string)
| MultipleResultsFound (msg : string)
| OverflowError (msg : string)
| TypeError (msg : string).

Inductive py (A : Type) : Type :=
| Return (a : A)
| Raise (e : exn).
Arguments Return {A} a.
Arguments Raise {A} e.

(** [x < y] on floats, as a boolean. *)
Definition Qlt_bool (x y : Q) : bool := negb (Qle_bool y x).

(** Truthiness of an optional string: [None] and [""] are falsy. *)
Definition truthy (o : option string) : bool :=
  match o with
  | Some s => negb (String.eqb s "")
  | None => false
  end.

Module Executor.

(** ** CONFIG & CONSTANTS

    The module-level constants read from the environment.  [default_config]
    is what the source gets when no variable is set. *)

Record Config : Type := {
  PYTH_HERMES_URL : string;
  ARBITRUM_RPC_URL : option string;
  PONTE_ADDRESS : option string;
  RELAYER_PK : option string;
  CHAIN_ID : Z;
  MAX_LEVERAGE_FX : Q;
  MAX_LEVERAGE_CRYPTO : Q;
  MAX_LEVERAGE_METAL : Q;
  MAX_LEVERAGE_INDEX : Q;
  (* [Web3 is not None]: the optional import succeeded. *)
  web3_installed : bool;
  (* read by [process_trade_intent] at call time *)
  TEST_USER_WALLET : option string;
  RELAYER_ADDRESS : option string
}.

Definition default_config : Config := {|
  PYTH_HERMES_URL := "https://hermes.pyth.network";
  ARBITRUM_RPC_URL := None;
  PONTE_ADDRESS := None;
  RELAYER_PK := None;
  CHAIN_ID := 421614%Z;
  MAX_LEVERAGE_FX := 40;
  MAX_LEVERAGE_CRYPTO := 40;
  MAX_LEVERAGE_METAL := 40;
  MAX_LEVERAGE_INDEX := 20;
  web3_installed := false;
  TEST_USER_WALLET := None;
  RELAYER_ADDRESS := None
|}.

(** ** Asset classes and leverage *)

Inductive AssetClass : Type := CRYPTO | METAL | INDEX | FX.

Definition symbol_in (symbol : string) (l : list string) : bool :=
  existsb (String.eqb symbol) l.

Definition _asset_class (symbol : string) : AssetClass :=
  if symbol_in symbol ["BTCUSD"; "ETHUSD"] then CRYPTO
  else if symbol_in symbol ["XAUUSD"; "XAGUSD"; "LIGHTCMDUSD"] then METAL
  else if String.eqb symbol "DOLLARIDXUSD" then INDEX
  else FX.

Definition _max_leverage_for (cfg : Config) (symbol : string) : Q :=
  match _asset_class symbol with
  | CRYPTO => MAX_LEVERAGE_CRYPTO cfg
  | METAL => MAX_LEVERAGE_METAL cfg
  | INDEX => MAX_LEVERAGE_INDEX cfg
  | FX => MAX_LEVERAGE_FX cfg
  end.

(** The ceiling configured for a class. *)
Definition ceiling (cfg : Config) (c : AssetClass) : Q :=
  match c with
  | CRYPTO => MAX_LEVERAGE_CRYPTO cfg
  | METAL => MAX_LEVERAGE_METAL cfg
  | INDEX => MAX_LEVERAGE_INDEX cfg
  | FX => MAX_LEVERAGE_FX cfg
  end.

(** ** SIZE *)

Record SizeInfo : Type := {
  equity : Q;
  risk_amount : Q;
  max_leverage : Q;
  notional : Q;
  qty : Q;
  price : Q
}.

Definition compute_position_size
    (cfg : Config) (equity risk_pct price : Q) (symbol : string) : py SizeInfo :=
  let max_lev := _max_leverage_for cfg symbol in
  let risk_amount := equity * risk_pct in
  let notional := risk_amount * max_lev in
  if Qle_bool notional 0 || Qle_bool price 0 then
    Raise (ValueError "invalid notional/price for size calc")
  else
    let qty := notional / price in
    Return {| equity := equity;
              risk_amount := risk_amount;
              max_leverage := max_lev;
              notional := notional;
              qty := qty;
              price := price |}.

(** The error the spec calls [InvalidSizing]. *)
Definition InvalidSizing : exn := ValueError "invalid notional/price for size calc".

(** ** The world [process_trade_intent] runs in *)

Record Uuid : Type := {
  uuid_str : string;   (* str(u): dashed form *)
  uuid_hex : string    (* u.hex: 32 hex digits *)
}.

Record TenantRow : Type := {
  tenant_id : string;
  tenant_email : string;
  tenant_stripe_customer_id : option string;
  tenant_created_at : Z
}.

Record ContractRow : Type := {
  contract_id : string;
  contract_tenant_id : string;
  contract_arbitrum_address : string;
  contract_status : string;
  contract_deposit_cap_eur : Z;
  contract_created_at : Z
}.

Record SignalRow : Type := {
  signal_id : string;
  signal_symbol : string;
  signal_score : Q;
  signal_p : Q;
  signal_e : Q;
  signal_r : Q;
  signal_v : Q;
  signal_created_at : Z
}.

(** One item of the Hermes answer: [item["price"]] with its optional
    mantissa [price] and exponent [expo]. *)
Record PriceObj : Type := {
  px : option Z;
  expo : option Z
}.

Record FeedItem : Type := {
  item_price : option PriceObj
}.

(** Log records; the f-strings of the source are kept as their arguments. *)
Inductive LogRecord : Type :=
| LogWarning (msg : string)
| LogStub (symbol direction : string) (size : SizeInfo) (fake_tx : string)
| LogStubWeb3 (symbol direction : string) (size : SizeInfo) (fake_tx : string).

Record world : Type := {
  tenants : list TenantRow;
  contracts : list ContractRow;
  signals : list SignalRow;
  (* outbound GET requests: url and the [ids[]] parameter, oldest first *)
  http_requests : list (string * list string);
  log : list LogRecord;
  (* how many uuids [uuid.uuid4()] has handed out *)
  uuid_count : nat
}.

(** What the run reads and cannot change: configuration, the uuid and
    clock sources, the Hermes endpoint and web3's key parser. *)
Record Env : Type := {
  cfg : Config;
  uuid4_nth : nat -> Uuid;
  now : Z;
  hermes : string -> list string -> py (list FeedItem);
  account_from_key : string -> py string
}.

(** State and exception monad.  A raise keeps the world reached so far;
    what a database transaction had written is rolled back by [begin]. *)
Definition M (A : Type) : Type := world -> py A * world.

#[export] Instance M_ret : MRet M := fun A a w => (Return a, w).
#[export] Instance M_bind : MBind M := fun A B f m w =>
  match m w with
  | (Return a, w') => f a w'
  | (Raise e, w') => (Raise e, w')
  end.

Definition raise {A : Type} (e : exn) : M A := fun w => (Raise e, w).
Definition lift_py {A : Type} (r : py A) : M A := fun w => (r, w).
Definition get_world : M world := fun w => (Return w, w).

(** World updates, one per kind of effect. *)
Definition bump_uuid (w : world) : world :=
  {| tenants := tenants w; contracts := contracts w; signals := signals w;
     http_requests := http_requests w; log := log w;
     uuid_count := S (uuid_count w) |}.

Definition add_log (r : LogRecord) (w : world) : world :=
  {| tenants := tenants w; contracts := contracts w; signals := signals w;
     http_requests := http_requests w; log := log w ++ [r];
     uuid_count := uuid_count w |}.

Definition add_tenant (r : TenantRow) (w : world) : world :=
  {| tenants := tenants w ++ [r]; contracts := contracts w; signals := signals w;
     http_requests := http_requests w; log := log w;
     uuid_count := uuid_count w |}.

Definition add_contract (r : ContractRow) (w : world) : world :=
  {| tenants := tenants w; contracts := contracts w ++ [r]; signals := signals w;
     http_requests := http_requests w; log := log w;
     uuid_count := uuid_count w |}.

Definition add_signal (r : SignalRow) (w : world) : world :=
  {| tenants := tenants w; contracts := contracts w; signals := signals w ++ [r];
     http_requests := http_requests w; log := log w;
     uuid_count := uuid_count w |}.

Definition add_request (rq : string * list string) (w : world) : world :=
  {| tenants := tenants w; contracts := contracts w; signals := signals w;
     http_requests := http_requests w ++ [rq]; log := log w;
     uuid_count := uuid_count w |}.

Definition uuid4 (env : Env) : M Uuid := fun w =>
  (Return (uuid4_nth env (uuid_count w)), bump_uuid w).

Definition logging (r : LogRecord) : M unit := fun w => (Return tt, add_log r w).

Definition insert_tenant (r : TenantRow) : M unit := fun w => (Return tt, add_tenant r w).

Definition insert_contract (r : ContractRow) : M unit := fun w =>
  (Return tt, add_contract r w).

Definition insert_signal (r : SignalRow) : M unit := fun w => (Return tt, add_signal r w).

(** One GET to Hermes: the request leaves, then the answer (or the
    transport's exception) comes back. *)
Definition http_get (env : Env) (url : string) (ids : list string) : M (list FeedItem) :=
  fun w => (hermes env url ids, add_request (url, ids) w).

(** [with engine.begin() as conn: ...]: the block's writes are committed
    when it returns and the tables are restored when it raises; the log,
    the requests and the uuids drawn are not part of the transaction. *)
Definition begin {A : Type} (block : M A) : M A := fun w =>
  match block w with
  | (Return a, w') => (Return a, w')
  | (Raise e, w') =>
      (Raise e,
       {| tenants := tenants w; contracts := contracts w; signals := signals w;
          http_requests := http_requests w'; log := log w';
          uuid_count := uuid_count w' |})
  end.

(** [result.scalar_one_or_none()] on the rows a SELECT matched. *)
Definition scalar_one_or_none {A : Type} (rows : list A) : py (option A) :=
  match rows with
  | [] => Return None
  | [row] => Return (Some row)
  | _ => Raise (MultipleResultsFound "Multiple rows were found when one or none was required")
  end.

(** ** DB HELPERS *)

Record Intent : Type := {
  intent_user_id : option string;
  intent_symbol : string;
  intent_risk_pct : Q;
  intent_direction : string
}.

Definition get_or_create_signal (env : Env) (intent : Intent) : M string :=
  let symbol := intent_symbol intent in
  let created_at := now env in
  u ← uuid4 env;
  let str_id := uuid_str u in
  _ ← begin (
    insert_signal {| signal_id := str_id; signal_symbol := symbol;
                     signal_score := 1; signal_p := 9 # 10; signal_e := 9 # 10;
                     signal_r := 9 # 10; signal_v := 9 # 10;
                     signal_created_at := created_at |});
  mret str_id.

Definition ensure_test_user (env : Env) (user_id test_wallet : string) : M unit :=
  begin (
    w ← get_world;
    row ← lift_py (scalar_one_or_none
             (List.filter (fun t => String.eqb (tenant_email t) user_id) (tenants w)));
    tenant_uuid ←
      match row with
      | None =>
          u ← uuid4 env;
          let tenant_uuid := uuid_str u in
          _ ← insert_tenant {| tenant_id := tenant_uuid; tenant_email := user_id;
                               tenant_stripe_customer_id := None;
                               tenant_created_at := now env |};
          mret tenant_uuid
      | Some t => mret (tenant_id t)
      end;
    (* make sure there is a contract entry *)
    w ← get_world;
    c ← lift_py (scalar_one_or_none
           (List.filter (fun c => String.eqb (contract_tenant_id c) tenant_uuid
                                  && String.eqb (contract_arbitrum_address c) test_wallet)
                        (contracts w)));
    match c with
    | None =>
        u ← uuid4 env;
        insert_contract {| contract_id := uuid_str u; contract_tenant_id := tenant_uuid;
                           contract_arbitrum_address := test_wallet;
                           contract_status := "active";
                           contract_deposit_cap_eur := 100000;
                           contract_created_at := now env |}
    | Some _ => mret tt
    end).

Definition get_equity_for_user (user_id : string) : Q := 10000.

(** ** PYTH / PRICE *)

Definition PYTH_FEEDS : gmap string string := list_to_map [
  ("EURUSD",       "0xa995d00bb36a63cef7fd2c287dc105fc8f3d93779f062f09551b0af3e81ec30b");
  ("GBPUSD",       "0x84c2dde9633d93d1bcad84e7dc41c9d56578b7ec52fabedc1f335d673df0a7c1");
  ("AUDUSD",       "0x67a6f93030420c1c9e3fe37c1ab6b77966af82f995944a9fefce357a22854a80");
  ("USDJPY",       "0xef2c98c804ba503c6a707e38be4dfbb16683775f195b091252bf24693042fd52");
  ("USDCHF",       "0x0b1e3297e69f162877b577b0d6a47a0d63b2392bc8499e6540da4187a63e28f8");
  ("USDCAD",       "0x3112b03a41c910ed446852aacf67118cb1bec67b2cd0b9a214c58cc0eaa2ecca");
  ("EURJPY",       "0xd8c874fa511b9838d094109f996890642421e462c3b29501a2560cecf82c2eb4");
  ("AUDJPY",       "0x8dbbb66dff44114f0bfc34a1d19f0fe6fc3906dcc72f7668d3ea936e1d6544ce");
  ("CADJPY",       "0x9e19cbf0b363b3ce3fa8533e171f449f605a7ca5bb272a9b80df4264591c4cbb");
  ("GBPJPY",       "0xcfa65905787703c692c3cac2b8a009a1db51ce68b54f5b206ce6a55bfa2c3cd1");
  ("DOLLARIDXUSD", "0x710afe0041a07156bfd71971160c78a326bf8121403e0d4e140d06bea0353b7f");
  ("XAGUSD",       "0xf2fb02c32b055c805e7238d628e5e9dadef274376114eb1f012337cabe93871e");
  ("XAUUSD",       "0x765d2ba906dbc32ca17cc11f5310a89e9ee1f6420508c63861f2f8ba4ee34bb2");
  ("LIGHTCMDUSD",  "0x925ca92ff005ae943c158e3563f59698ce7e75c5a8c8dd43303a0a154887b3e6");
  ("BTCUSD",       "0xe62df6c8b4a85fe1a67db44dc12de5db330f7ac66b72dc658afedf0f4a415b43");
  ("ETHUSD",       "0xff61491a931112ddf1bd8147cd1b641375f79f5825126d665480874634fd0ace")
].

Definition SYMBOL_UNIVERSE : list string :=
  ["AUDJPY"; "AUDUSD"; "BTCUSD"; "CADJPY"; "DOLLARIDXUSD";
   "ETHUSD"; "EURJPY"; "EURUSD"; "GBPJPY"; "GBPUSD";
   "LIGHTCMDUSD"; "USATECHIDXUSD";
   "USDCAD"; "USDCHF"; "USDJPY"; "XAGUSD"; "XAUUSD"].

Definition COSCIENZA_SYMBOLS_V3 : list string :=
  ["EURUSD"; "GBPUSD"; "AUDUSD"; "USDJPY"; "USDCHF"; "USDCAD";
   "EURJPY"; "AUDJPY"; "CADJPY"; "GBPJPY";
   "XAUUSD"; "XAGUSD"; "LIGHTCMDUSD"; "DOLLARIDXUSD";
   "BTCUSD"; "ETHUSD"].

(** [s.rstrip("/")] *)
Fixpoint rstrip_slash (s : string) : string :=
  match s with
  | EmptyString => EmptyString
  | String c rest =>
      match rstrip_slash rest with
      | EmptyString => if Ascii.eqb c "/"%char then EmptyString else String c EmptyString
      | rest' => String c rest'
      end
  end.

Definition fetch_pyth_price (env : Env) (symbol : string) : M Q :=
  let feed_id := PYTH_FEEDS !! symbol in
  if negb (truthy feed_id) then
    raise (ValueError ("no pyth feed configured for symbol=" ++ symbol))
  else
    let url := rstrip_slash (PYTH_HERMES_URL (cfg env)) ++ "/api/latest_price_feeds" in
    data ← http_get env url (option_list feed_id);
    match data with
    | [] => raise (RuntimeError ("pyth price not found for symbol=" ++ symbol))
    | item :: _ =>
        let price_obj := default {| px := None; expo := None |} (item_price item) in
        let px := px price_obj in
        let expo := default 0%Z (expo price_obj) in
        match px with
        | None => raise (RuntimeError ("pyth price missing 'price' field for " ++ symbol))
        | Some px => mret (inject_Z px * Qpower 10 expo)
        end
    end.

(** ** ONCHAIN (stub) *)

(** The object [_get_web3] returns is only tested against [None]; it is
    kept as the RPC url it was built from. *)
Definition _get_web3 (env : Env) : M (option string) :=
  let c := cfg env in
  if negb (truthy (ARBITRUM_RPC_URL c) && truthy (RELAYER_PK c) && truthy (PONTE_ADDRESS c)) then
    _ ← logging (LogWarning
          "onchain execution disabled: missing ARBITRUM_RPC_URL/RELAYER_PK/PONTE_ADDRESS");
    mret None
  else if negb (web3_installed c) then
    _ ← logging (LogWarning "web3 not installed, skipping onchain execution");
    mret None
  else
    mret (ARBITRUM_RPC_URL c).

Definition execute_onchain_trade
    (env : Env) (symbol direction : string) (size : SizeInfo) : M string :=
  w3 ← _get_web3 env;
  match w3 with
  | None =>
      u ← uuid4 env;
      let fake_tx := "0xSTUB-" ++ uuid_hex u in
      _ ← logging (LogStub symbol direction size fake_tx);
      mret fake_tx
  | Some _ =>
      acct ← lift_py (account_from_key env (default "" (RELAYER_PK (cfg env))));
      u ← uuid4 env;
      let fake_tx := "0xSTUB-" ++ uuid_hex u in
      _ ← logging (LogStubWeb3 symbol direction size fake_tx);
      mret fake_tx
  end.

(** ** ENTRY POINT *)

Record IntentResult : Type := {
  res_intent_id : string;
  res_status : string;
  res_message : string;
  res_symbol : string;
  res_user_id : string;
  res_risk_pct : Q;
  res_equity : Q;
  res_price : Q;
  res_size : SizeInfo;
  res_tx_hash : string;
  res_signal_id : string
}.

(** [intent.get("user_id") or "TEST_USER_001"] *)
Definition user_id_of (intent : Intent) : string :=
  if truthy (intent_user_id intent) then default "" (intent_user_id intent)
  else "TEST_USER_001".

(** [TEST_USER_WALLET], else [RELAYER_ADDRESS], else [""]. *)
Definition test_wallet_of (c : Config) : string :=
  if truthy (TEST_USER_WALLET c) then default "" (TEST_USER_WALLET c)
  else default "" (RELAYER_ADDRESS c).

Definition process_trade_intent (env : Env) (intent : Intent) : M IntentResult :=
  let user_id := user_id_of intent in
  let symbol := intent_symbol intent in
  let risk_pct := intent_risk_pct intent in
  (* 1) tenant + contract entry *)
  let test_wallet := test_wallet_of (cfg env) in
  if String.eqb test_wallet "" then
    raise (RuntimeError "TEST_USER_WALLET or RELAYER_ADDRESS not configured")
  else
    _ ← ensure_test_user env user_id test_wallet;
    (* 2) store the signal *)
    signal_id ← get_or_create_signal env intent;
    (* 3) equity + price *)
    let equity := get_equity_for_user user_id in
    price ← fetch_pyth_price env symbol;
    (* 4) size *)
    size_info ← lift_py (compute_position_size (cfg env) equity risk_pct price symbol);
    (* 5) on-chain execution (stub or real) *)
    let direction := intent_direction intent in
    tx_hash ← execute_onchain_trade env symbol direction size_info;
    u ← uuid4 env;
    let intent_id := uuid_str u in
    mret {| res_intent_id := intent_id;
            res_status := "RECEIVED";
            res_message := "intent accepted";
            res_symbol := symbol;
            res_user_id := user_id;
            res_risk_pct := risk_pct;
            res_equity := Executor.equity size_info;
            res_price := Executor.price size_info;
            res_size := size_info;
            res_tx_hash := tx_hash;
            res_signal_id := signal_id |}.

(** The spec's pipeline states, read off a run of [process_trade_intent]:
    a normal return happens only after step 5 has run, and a raise is
    the terminal failure with its cause. *)
Inductive PipelineState : Type :=
| RECEIVED | PRICED | SIZED | DISPATCHED
| FAILED (reason : exn).

Definition final_state {A : Type} (r : py A) : PipelineState :=
  match r with
  | Return _ => DISPATCHED
  | Raise e => FAILED e
  end.

(** A settlement confirmation is a transaction hash: hexadecimal digits,
    with or without the [0x] prefix (what [tx_hash.hex()] of the
    commented-out relay code yields). *)
Definition is_hex_digit (c : ascii) : bool :=
  let n := nat_of_ascii c in
  ((48 <=? n) && (n <=? 57) || (97 <=? n) && (n <=? 102) || (65 <=? n) && (n <=? 70))%nat.

Fixpoint all_hex (s : string) : bool :=
  match s with
  | EmptyString => true
  | String c rest => is_hex_digit c && all_hex rest
  end.

Definition is_tx_hash (s : string) : bool :=
  match s with
  | String "0" (String "x" rest) => all_hex rest
  | _ => all_hex s
  end.

End Executor.

Module Coordinator.

(** ** MOCK INTELLIGENCE LAYER (Radar, Pyth, Coscienza, Risk) *)

(** A score dictionary [{"p": .., "e": .., "r": .., "v": ..}]. *)
Record Signal : Type := {
  p : Q;
  e : Q;
  r : Q;
  v : Q
}.

(** A Python [dict] whose iteration order is observed: its items in
    insertion order, one per key.  Assigning to a key that is present
    keeps its place. *)
Abbreviation odict V := (list (string * V)).

Fixpoint dict_set {V : Type} (d : odict V) (k : string) (x : V) : odict V :=
  match d with
  | [] => [(k, x)]
  | (k', x') :: d' =>
      if String.eqb k' k then (k, x) :: d' else (k', x') :: dict_set d' k x
  end.

Fixpoint dict_get {V : Type} (d : odict V) (k : string) : option V :=
  match d with
  | [] => None
  | (k', x') :: d' => if String.eqb k' k then Some x' else dict_get d' k
  end.

Definition SYMBOLS : list string :=
  ["EURUSD"; "GBPUSD"; "USDJPY"; "USDCHF"; "USDCAD";
   "AUDUSD"; "NZDUSD"; "XAUUSD"; "XAGUSD"; "WTI";
   "DAX"; "SPX"; "NDX"; "BTCUSD"; "ETHUSD";
   "SOLUSD"; "ADAUSD"; "LINKUSD"; "AVAXUSD"; "DOGEUSD"].

(** [l[:k]] for an integer [k]; a negative [k] counts from the end. *)
Definition slice_to {A : Type} (l : list A) (k : Z) : list A :=
  if (k <? 0)%Z then take (length l - Z.to_nat (- k)) l
  else take (Z.to_nat k) l.

Definition mock_radar (symbols : list string) : list string :=
  slice_to symbols 5.

Definition mock_pyth_prices (symbols : list string) : gmap string Q :=
  let base : gmap string Q :=
    list_to_map [("EURUSD", 107 # 100); ("GBPUSD", 125 # 100); ("USDJPY", 150);
                 ("XAUUSD", 1995); ("BTCUSD", 65000)] in
  list_to_map (map (fun s => (s, default 1 (base !! s))) symbols).

(** [x % m] on floats: the remainder takes the sign of the divisor. *)
Definition float_mod (x m : Q) : Q := x - m * inject_Z (Qfloor (x / m)).

(** [min(a, b)]: the first argument unless the second is smaller. *)
Definition py_min (a b : Q) : Q := if Qlt_bool b a then b else a.

Definition score_of (price : Q) : Signal :=
  let score := float_mod price 7 / 7 in
  {| p := py_min (99 # 100) ((50 # 100) + score * (40 # 100));
     e := py_min (99 # 100) ((60 # 100) + score * (30 # 100));
     r := 9 # 10;
     v := 9 # 10 |}.

Definition mock_coscienza_score (symbols : list string) (prices : gmap string Q)
    : odict Signal :=
  fold_left
    (fun out s =>
       let p := default 1 (prices !! s) in
       dict_set out s (score_of p))
    symbols [].

Definition risk_manager (signal : Signal) : bool :=
  let se := p signal * e signal in
  Qle_bool (6 # 10) se.

(** [sorted(items, key=key, reverse=True)]: descending, and stable (items
    of equal key keep their order).  [insert_desc] puts [x], which
    precedes all of [l] in the input, before the first item whose key
    does not exceed its own. *)
Fixpoint insert_desc {A : Type} (key : A -> Q) (x : A) (l : list A) : list A :=
  match l with
  | [] => [x]
  | y :: l' =>
      if Qle_bool (key y) (key x) then x :: y :: l'
      else y :: insert_desc key x l'
  end.

Definition sorted_desc {A : Type} (key : A -> Q) (l : list A) : list A :=
  foldr (insert_desc key) [] l.

(** The ranking key [kv[1]["p"] * kv[1]["e"]]. *)
Definition pe (kv : string * Signal) : Q := p kv.2 * e kv.2.

Definition top_signals (scores : odict Signal) (k : Z) : odict Signal :=
  let ranked := sorted_desc pe scores in
  slice_to ranked k.

(** ** The tick *)

(** Step 4 of [tick], [[(sym, s) for sym, s in top_signals(scores, k) if
    risk_manager(s)]]; the source calls it with [k=3]. *)
Definition rank_and_risk (scores : odict Signal) (k : Z) : odict Signal :=
  filter (fun kv => risk_manager kv.2 = true) (top_signals scores k).

Record TenantRef : Type := {
  tenant_id : string;
  email : string
}.

Record Payload : Type := {
  payload_tenant_id : string;
  payload_email : string;
  payload_symbol : string;
  payload_p : Q;
  payload_e : Q;
  payload_r : Q;
  payload_v : Q;
  payload_ts : string
}.

(** Step 6 of [tick]: one job per tenant row, each carrying [picks[0]]
    and the time [clock i] at which the loop reached row [i]; the early
    return on an empty [picks] enqueues nothing. *)
Definition enqueue_jobs (rows : list TenantRef) (clock : nat -> string)
    (picks : odict Signal) : list Payload :=
  match picks with
  | [] => []
  | (best_sym, best) :: _ =>
      imap (fun i row =>
              {| payload_tenant_id := tenant_id row;
                 payload_email := email row;
                 payload_symbol := best_sym;
                 payload_p := p best;
                 payload_e := e best;
                 payload_r := r best;
                 payload_v := v best;
                 payload_ts := clock i |})
           rows
  end.

(** Steps 1 to 4 and 6 of [tick] for the tenant rows the database
    returned. *)
Definition tick_jobs (rows : list TenantRef) (clock : nat -> string) : list Payload :=
  let cand := mock_radar SYMBOLS in
  let prices := mock_pyth_prices cand in
  let scores := mock_coscienza_score cand prices in
  let picks := rank_and_risk scores 3 in
  enqueue_jobs rows clock picks.

(** ** The endpoints *)

(** [a or b] on optional strings: the first operand when it is truthy. *)
Definition py_or (a b : option string) : option string := if truthy a then a else b.

(** [os.getenv] reads the process environment [environ]. *)
Definition _project_id (environ : gmap string string) : option string :=
  py_or (py_or (py_or (environ !! "GOOGLE_CLOUD_PROJECT")
                      (environ !! "GCP_PROJECT"))
               (environ !! "PROJECT_ID"))
        (environ !! "COSCIENZA_PROJECT_ID").

(** [str(e)] of the exceptions modelled. *)
Definition str_exn (e : exn) : string :=
  match e with
  | ValueError msg | RuntimeError msg | HTTPError msg | MultipleResultsFound msg
  | OverflowError msg | TypeError msg => msg
  end.

Record PlainTextResponse : Type := {
  content : string;
  status_code : Z
}.

(** [tick].  Steps 5 and 6, the tenants query and the Cloud Tasks calls,
    are the parameter [steps_5_6]: what they answer, or raise, for the
    picks they are handed.  The [try] turns every exception into a 500. *)
Definition tick (environ : gmap string string) (steps_5_6 : odict Signal -> py string)
    : PlainTextResponse :=
  let attempt : py string :=
    let PROJECT := _project_id environ in
    if negb (truthy PROJECT) then Raise (RuntimeError "Missing project id env")
    else
      (* 1) Radar, 2) Pyth (mock), 3) Coscienza (mock), 4) Rank & risk *)
      let cand := mock_radar SYMBOLS in
      let prices := mock_pyth_prices cand in
      let scores := mock_coscienza_score cand prices in
      let picks := rank_and_risk scores 3 in
      match picks with
      | [] => Return "tick-queued(0 tenants, 0 signals)"
      | _ => steps_5_6 picks
      end in
  match attempt with
  | Return text => {| content := text; status_code := 200 |}
  | Raise e => {| content := "tick-error: " ++ str_exn e; status_code := 500 |}
  end.

(** How a request handler ends: it answers, raises [HTTPException], or
    lets another exception escape to the framework. *)
Inductive Outcome (A : Type) : Type :=
| Respond (a : A)
| HTTPException (status : Z) (detail : string)
| Escapes (e : exn).
Arguments Respond {A} a.
Arguments HTTPException {A} status detail.
Arguments Escapes {A} e.

(** The two JSON bodies of [/pyth/price]:
    [{"ok": False, "id": id, "reason": "not found"}] and
    [{"ok": True, "id": id, "price": out, "raw": item}]. *)
Inductive PriceReply : Type :=
| NotFound (id : string)
| Quote (id : string) (out : option Q) (raw : Executor.FeedItem).

(** [len(s)].  A Python [str] is held as its UTF-8 bytes and [len]
    counts code points: the bytes that are not continuation bytes
    [10xxxxxx]. *)
Definition is_continuation (c : ascii) : bool :=
  let n := nat_of_ascii c in ((128 <=? n) && (n <? 192))%nat.

Fixpoint len (s : string) : nat :=
  match s with
  | EmptyString => O
  | String c rest => ((if is_continuation c then 0 else 1) + len rest)%nat
  end.

Definition startswith_0x (id : string) : bool :=
  match id with
  | String "0" (String "x" _) => true
  | _ => false
  end.

(** [float(px) * (10 ** float(expo)) if px is not None else None] *)
Definition quote_of (item : Executor.FeedItem) : option Q :=
  let price := default {| Executor.px := None; Executor.expo := None |}
                       (Executor.item_price item) in
  let px := Executor.px price in
  let expo := default 0%Z (Executor.expo price) in
  match px with
  | Some px => Some (inject_Z px * Qpower 10 expo)
  | None => None
  end.

(** The first [pyth_price] of the file. *)
Definition pyth_price_1 (PYTH_HERMES_URL : string)
    (hermes : string -> list string -> py (list Executor.FeedItem)) (id : string)
    : Outcome PriceReply :=
  if negb (startswith_0x id) || (len id <? 10)%nat then
    HTTPException 400 "invalid feed id"
  else
    let url := Executor.rstrip_slash PYTH_HERMES_URL ++ "/api/latest_price_feeds" in
    match hermes url [id] with
    | Raise (HTTPError msg) => HTTPException 502 ("hermes error: " ++ msg)
    | Raise e => Escapes e
    | Return [] => Respond (NotFound id)
    | Return (item :: _) => Respond (Quote id (quote_of item) item)
    end.


End Coordinator.

(** ** The arithmetic on IEEE binary64

    Python's [float] is the IEEE 754 double.  This module has the
    functions of both files whose result depends on that arithmetic,
    computed as the source computes them: a product or quotient is the
    exact one rounded to nearest, ties to even, and the comparisons are
    the IEEE ones, false whenever an operand is a NaN. *)
Module Binary64.

(** The value of a finite double as a rational; 0 for the infinities
    and NaN, which have none. *)
Definition exact (x : float) : Q :=
  match Prim2SF x with
  | S754_finite s m e => (if s then -1 else 1) * inject_Z (Z.pos m) * Qpower 2 e
  | _ => 0
  end.

(** *** SIZE *)

Record Leverage : Type := {
  MAX_LEVERAGE_FX : float;
  MAX_LEVERAGE_CRYPTO : float;
  MAX_LEVERAGE_METAL : float;
  MAX_LEVERAGE_INDEX : float
}.

Definition default_leverage : Leverage := {|
  MAX_LEVERAGE_FX := 40;
  MAX_LEVERAGE_CRYPTO := 40;
  MAX_LEVERAGE_METAL := 40;
  MAX_LEVERAGE_INDEX := 20
|}.

Definition _max_leverage_for (c : Leverage) (symbol : string) : float :=
  match Executor._asset_class symbol with
  | Executor.CRYPTO => MAX_LEVERAGE_CRYPTO c
  | Executor.METAL => MAX_LEVERAGE_METAL c
  | Executor.INDEX => MAX_LEVERAGE_INDEX c
  | Executor.FX => MAX_LEVERAGE_FX c
  end.

Record SizeInfo : Type := {
  equity : float;
  risk_amount : float;
  max_leverage : float;
  notional : float;
  qty : float;
  price : float
}.

Definition InvalidSizing : exn := ValueError "invalid notional/price for size calc".

Definition compute_position_size
    (c : Leverage) (equity risk_pct price : float) (symbol : string) : py SizeInfo :=
  let max_lev := _max_leverage_for c symbol in
  let risk_amount := (equity * risk_pct)%float in
  let notional := (risk_amount * max_lev)%float in
  if (notional <=? 0)%float || (price <=? 0)%float then
    Raise InvalidSizing
  else
    let qty := (notional / price)%float in
    Return {| equity := equity;
              risk_amount := risk_amount;
              max_leverage := max_lev;
              notional := notional;
              qty := qty;
              price := price |}.

(** *** PYTH / PRICE *)

(** A scalar of the JSON answer, as [r.json()] hands it over. *)
Inductive Json : Type :=
| JNull
| JBool (b : bool)
| JInt (z : Z)
| JFloat (f : float)
| JStr (s : string).

(** [item["price"]]: its members [price] and [expo], [None] when the
    key is absent. *)
Record PriceObj : Type := {
  px : option Json;
  expo : option Json
}.

Record FeedItem : Type := {
  item_price : option PriceObj
}.

(** What the run is given: the base URL, the Hermes endpoint, and the
    two operations of Python's [float] that depend on the platform,
    [float(s)] on a [str] and [v ** w]; each returns or raises. *)
Record Platform : Type := {
  PYTH_HERMES_URL : string;
  hermes : string -> list string -> py (list FeedItem);
  float_of_str : string -> py float;
  float_pow : float -> float -> py float
}.

(** [float(n)] on an [int]: the nearest double, ties to even, and an
    [OverflowError] when that is beyond the largest double. *)
Definition float_of_int (z : Z) : py float :=
  match binary_normalize prec emax z 0 false with
  | S754_infinity _ => Raise (OverflowError "int too large to convert to float")
  | x => Return (SF2Prim x)
  end.

(** [float(x)] *)
Definition py_float (pf : Platform) (x : Json) : py float :=
  match x with
  | JNull =>
      Raise (TypeError
               "float() argument must be a string or a real number, not 'NoneType'")
  | JBool b => Return (if b then 1 else 0)%float
  | JInt z => float_of_int z
  | JFloat f => Return f
  | JStr s => float_of_str pf s
  end.

(** [float(px) * (10 ** float(expo))], operands left to right. *)
Definition price_of (pf : Platform) (px expo : Json) : py float :=
  match py_float pf px with
  | Raise e => Raise e
  | Return m =>
      match py_float pf expo with
      | Raise e => Raise e
      | Return ex =>
          match float_pow pf 10 ex with
          | Raise e => Raise e
          | Return scale => Return (m * scale)%float
          end
      end
  end.

Definition fetch_pyth_price (pf : Platform) (symbol : string) : Executor.M float :=
  fun w =>
    let feed_id := Executor.PYTH_FEEDS !! symbol in
    if negb (truthy feed_id) then
      (Raise (ValueError ("no pyth feed configured for symbol=" ++ symbol)), w)
    else
      let url := Executor.rstrip_slash (PYTH_HERMES_URL pf) ++ "/api/latest_price_feeds" in
      (* the GET leaves, then the answer or the transport's exception comes back *)
      let w' := Executor.add_request (url, option_list feed_id) w in
      match hermes pf url (option_list feed_id) with
      | Raise e => (Raise e, w')
      | Return [] => (Raise (RuntimeError ("pyth price not found for symbol=" ++ symbol)), w')
      | Return (item :: _) =>
          let price_obj := default {| px := None; expo := None |} (item_price item) in
          let px := px price_obj in
          let expo := default (JInt 0) (expo price_obj) in
          match px with
          | None | Some JNull =>
              (Raise (RuntimeError ("pyth price missing 'price' field for " ++ symbol)), w')
          | Some px => (price_of pf px expo, w')
          end
      end.

(** *** Risk veto and ranking *)

Record Signal : Type := {
  p : float;
  e : float;
  r : float;
  v : float
}.

(** The double nearest to 0.6, which the literal [0.6] denotes. *)
Definition threshold : float := 0x1.3333333333333p-1%float.

Definition risk_manager (signal : Signal) : bool :=
  let se := (p signal * e signal)%float in
  (threshold <=? se)%float.

(** [sorted(items, key=key, reverse=True)].  Python's sort is stable and
    compares keys with [<] only; with [reverse=True] an item stays
    before a later one unless its key is smaller.  [insert_desc] puts
    [x], which precedes all of [l] in the input, before the first item
    whose key [x]'s key is not smaller than.  When no key is a NaN, [<]
    orders the keys and this list is the only stable descending
    arrangement; with a NaN key the comparisons are no order and the
    arrangement Python returns depends on its merge strategy, which is
    not modelled: the properties below assume keys that are numbers. *)
Fixpoint insert_desc {A : Type} (key : A -> float) (x : A) (l : list A) : list A :=
  match l with
  | [] => [x]
  | y :: l' =>
      if (key x <? key y)%float then y :: insert_desc key x l'
      else x :: y :: l'
  end.

Definition sorted_desc {A : Type} (key : A -> float) (l : list A) : list A :=
  foldr (insert_desc key) [] l.

(** The ranking key [kv[1]["p"] * kv[1]["e"]]. *)
Definition pe (kv : string * Signal) : float := (p kv.2 * e kv.2)%float.

Definition top_signals (scores : list (string * Signal)) (k : Z) : list (string * Signal) :=
  let ranked := sorted_desc pe scores in
  Coordinator.slice_to ranked k.

(** Step 4 of [tick], [[(sym, s) for sym, s in top_signals(scores, k) if
    risk_manager(s)]]; the source calls it with [k=3]. *)
Definition rank_and_risk (scores : list (string * Signal)) (k : Z)
    : list (string * Signal) :=
  filter (fun kv => risk_manager kv.2 = true) (top_signals scores k).

Record Payload : Type := {
  payload_tenant_id : string;
  payload_email : string;
  payload_symbol : string;
  payload_p : float;
  payload_e : float;
  payload_r : float;
  payload_v : float;
  payload_ts : string
}.

(** Step 6 of [tick]: one job per tenant row, each carrying [picks[0]]
    and the time [clock i] at which the loop reached row [i]; the early
    return on an empty [picks] enqueues nothing. *)
Definition enqueue_jobs (rows : list Coordinator.TenantRef) (clock : nat -> string)
    (picks : list (string * Signal)) : list Payload :=
  match picks with
  | [] => []
  | (best_sym, best) :: _ =>
      imap (fun i row =>
              {| payload_tenant_id := Coordinator.tenant_id row;
                 payload_email := Coordinator.email row;
                 payload_symbol := best_sym;
                 payload_p := p best;
                 payload_e := e best;
                 payload_r := r best;
                 payload_v := v best;
                 payload_ts := clock i |})
           rows
  end.

(** The scan pipeline in the spec's words: veto first, then rank the
    survivors and keep the first [k]. *)
Definition spec_selection (scores : list (string * Signal)) (k : Z)
    : list (string * Signal) :=
  top_signals (filter (fun kv => risk_manager kv.2 = true) scores) k.

End Binary64.

(** ** Concrete runs

    A small closed environment for running the executor: a laboratory
    wallet, uuids numbered in order, a fixed clock and a Hermes endpoint
    that gives one fixed answer. *)
Module Demo.
Import Executor.

Definition zfill (width : nat) (s : string) : string :=
  String.concat "" (replicate (width - String.length s) "0") ++ s.

Definition uuid_no (n : nat) : Uuid :=
  {| uuid_str := "00000000-0000-4000-8000-" ++ zfill 12 (pretty n);
     uuid_hex := "00000000000040008000" ++ zfill 12 (pretty n) |}.

Definition lab_config : Config := {|
  PYTH_HERMES_URL := "https://hermes.pyth.network";
  ARBITRUM_RPC_URL := None;
  PONTE_ADDRESS := None;
  RELAYER_PK := None;
  CHAIN_ID := 421614%Z;
  MAX_LEVERAGE_FX := 40;
  MAX_LEVERAGE_CRYPTO := 40;
  MAX_LEVERAGE_METAL := 40;
  MAX_LEVERAGE_INDEX := 20;
  web3_installed := false;
  TEST_USER_WALLET := Some "0x00000000000000000000000000000000000000aa";
  RELAYER_ADDRESS := None
|}.

Definition lab_env (answer : py (list FeedItem)) : Env := {|
  cfg := lab_config;
  uuid4_nth := uuid_no;
  now := 1700000000%Z;
  hermes := fun _ _ => answer;
  account_from_key := fun k => Return k
|}.

Definition empty_world : world := {|
  tenants := []; contracts := []; signals := [];
  http_requests := []; log := []; uuid_count := 0
|}.

Definition btc_intent : Intent := {|
  intent_user_id := None;
  intent_symbol := "BTCUSD";
  intent_risk_pct := 8 # 1000;
  intent_direction := "LONG"
|}.

(** BTCUSD at 65000: mantissa 6500000000000, exponent -8. *)
Definition btc_item : FeedItem :=
  {| item_price := Some {| px := Some 6500000000000%Z; expo := Some (-8)%Z |} |}.

(** *** A laboratory platform for the arithmetic

    [float(s)] for the strings Hermes sends, a run of decimal digits:
    the nearest double of the integer (infinity when it is beyond the
    doubles); this platform raises the [ValueError] of an unparsable
    string on every other string. *)
Fixpoint digits (s : string) (acc : Z) : option Z :=
  match s with
  | EmptyString => Some acc
  | String c rest =>
      let n := nat_of_ascii c in
      if ((48 <=? n) && (n <=? 57))%nat then digits rest (10 * acc + Z.of_nat (n - 48))%Z
      else None
  end.

Definition lab_float_of_str (s : string) : py float :=
  match s, digits s 0 with
  | String _ _, Some z => Return (SF2Prim (binary_normalize prec emax z 0 false))
  | _, _ => Raise (ValueError ("could not convert string to float: '" ++ s ++ "'"))
  end.

(** [v ** w] at the exponents the runs below use, as CPython answers for
    the base 10: [10 ** 0.0] is 1.0, [10 ** -8.0] is 1e-08, and beyond
    308 the result is out of range.  No other exponent is tabulated. *)
Definition lab_pow (v w : float) : py float :=
  if (w =? 0)%float then Return 1%float
  else if (w =? -8)%float then Return 0x1.5798ee2308c3ap-27%float
  else if (308 <? w)%float then
    Raise (OverflowError "(34, 'Numerical result out of range')")
  else Raise (RuntimeError "lab_pow: exponent not tabulated").

Definition lab_platform (answer : py (list Binary64.FeedItem)) : Binary64.Platform := {|
  Binary64.PYTH_HERMES_URL := "https://hermes.pyth.network";
  Binary64.hermes := fun _ _ => answer;
  Binary64.float_of_str := lab_float_of_str;
  Binary64.float_pow := lab_pow
|}.

Definition quote (px : Binary64.Json) (expo : option Binary64.Json) : Binary64.FeedItem :=
  {| Binary64.item_price := Some {| Binary64.px := Some px; Binary64.expo := expo |} |}.

(** BTCUSD at 65000, as Hermes sends it: the mantissa is a string. *)
Definition btc_quote : Binary64.FeedItem :=
  quote (Binary64.JStr "6500000000000") (Some (Binary64.JInt (-8))).

(** The same price sent without its exponent. *)
Definition btc_quote_no_expo : Binary64.FeedItem :=
  quote (Binary64.JStr "65000") None.

(** A mantissa of 2^53 + 1, which is no double, and an exponent of 400. *)
Definition odd_quote : Binary64.FeedItem :=
  quote (Binary64.JInt 9007199254740993) (Some (Binary64.JInt 0)).

Definition far_quote : Binary64.FeedItem :=
  quote (Binary64.JInt 1) (Some (Binary64.JInt 400)).

End Demo.

(** * Properties *)

(** ** Comparisons on [Q] as booleans *)

Lemma Qlt_bool_iff (x y : Q) : Qlt_bool x y = true <-> x < y.
Proof.
  unfold Qlt_bool. rewrite negb_true_iff.
  split; intros H.
  - apply Qnot_le_lt. intros Hle. apply Qle_bool_iff in Hle. congruence.
  - destruct (Qle_bool y x) eqn:E; [|reflexivity].
    apply Qle_bool_iff in E. exfalso. apply (Qlt_not_le _ _ H E).
Qed.

Lemma Qle_bool_false (x y : Q) : Qle_bool x y = false <-> y < x.
Proof.
  rewrite <- Qlt_bool_iff. unfold Qlt_bool.
  destruct (Qle_bool x y); simpl; intuition congruence.
Qed.

Lemma Qle_bool_reflect (x y : Q) : reflect (x <= y) (Qle_bool x y).
Proof.
  destruct (Qle_bool x y) eqn:E; constructor.
  - now apply Qle_bool_iff.
  - intros H. apply Qle_bool_iff in H. congruence.
Qed.

Module LeverageFacts.
Import Executor.

Lemma symbol_in_spec (symbol : string) (l : list string) :
  symbol_in symbol l = true <-> In symbol l.
Proof.
  unfold symbol_in. rewrite existsb_exists. split.
  - intros (x & Hin & Heq). apply String.eqb_eq in Heq. now subst.
  - intros Hin. exists symbol. split; [assumption | apply String.eqb_refl].
Qed.

Lemma asset_class_cases (symbol : string) :
  (_asset_class symbol = CRYPTO <-> In symbol ["BTCUSD"; "ETHUSD"]) /\
  (_asset_class symbol = METAL <-> In symbol ["XAUUSD"; "XAGUSD"; "LIGHTCMDUSD"]) /\
  (_asset_class symbol = INDEX <-> symbol = "DOLLARIDXUSD") /\
  (_asset_class symbol = FX <->
     ~ In symbol ["BTCUSD"; "ETHUSD"; "XAUUSD"; "XAGUSD"; "LIGHTCMDUSD"; "DOLLARIDXUSD"]).
Proof.
  unfold _asset_class.
  destruct (symbol_in symbol ["BTCUSD"; "ETHUSD"]) eqn:Hc.
  { apply symbol_in_spec in Hc.
    repeat split; try easy; try (intros _; exact Hc).
    - intros Hm. simpl in Hc, Hm. intuition (subst; discriminate).
    - intros ->. simpl in Hc. intuition discriminate.
    - intros Hn. exfalso. apply Hn. simpl in *. tauto. }
  assert (Hc' : ~ In symbol ["BTCUSD"; "ETHUSD"]).
  { intros H. apply symbol_in_spec in H. congruence. }
  destruct (symbol_in symbol ["XAUUSD"; "XAGUSD"; "LIGHTCMDUSD"]) eqn:Hm.
  { apply symbol_in_spec in Hm.
    repeat split; try easy; try (intros _; exact Hm).
    - intros ->. simpl in Hm. intuition discriminate.
    - intros Hn. exfalso. apply Hn. simpl in *. tauto. }
  assert (Hm' : ~ In symbol ["XAUUSD"; "XAGUSD"; "LIGHTCMDUSD"]).
  { intros H. apply symbol_in_spec in H. congruence. }
  destruct (String.eqb symbol "DOLLARIDXUSD") eqn:Hi.
  { apply String.eqb_eq in Hi.
    repeat split; try easy; try (intros _; exact Hi).
    intros Hn. exfalso. apply Hn. subst symbol. simpl. tauto. }
  apply String.eqb_neq in Hi.
  repeat split; try easy.
  intros _ Hin. simpl in Hin, Hc', Hm'. intuition congruence.
Qed.

Lemma max_leverage_is_ceiling (c : Config) (symbol : string) :
  _max_leverage_for c symbol = ceiling c (_asset_class symbol).
Proof. unfold _max_leverage_for, ceiling. now destruct (_asset_class symbol). Qed.

(** C9. [_asset_class] assigns every symbol one class by the priority
    rule (the two crypto symbols, then the three metal symbols, then the
    index symbol, everything else FX); [_max_leverage_for] is the ceiling
    configured for that class, and the default ceilings are 40, 40, 40
    and 20. *)
Theorem asset_class_rule (c : Config) (symbol : string) :
  (_asset_class symbol = CRYPTO <-> In symbol ["BTCUSD"; "ETHUSD"]) /\
  (_asset_class symbol = METAL <-> In symbol ["XAUUSD"; "XAGUSD"; "LIGHTCMDUSD"]) /\
  (_asset_class symbol = INDEX <-> symbol = "DOLLARIDXUSD") /\
  (_asset_class symbol = FX <->
     ~ In symbol ["BTCUSD"; "ETHUSD"; "XAUUSD"; "XAGUSD"; "LIGHTCMDUSD"; "DOLLARIDXUSD"]) /\
  _max_leverage_for c symbol = ceiling c (_asset_class symbol) /\
  ceiling default_config FX = 40 /\
  ceiling default_config CRYPTO = 40 /\
  ceiling default_config METAL = 40 /\
  ceiling default_config INDEX = 20.
Proof.
  destruct (asset_class_cases symbol) as (H1 & H2 & H3 & H4).
  pose proof (max_leverage_is_ceiling c symbol) as H5.
  repeat split; solve [ apply H1 | apply H2 | apply H3 | apply H4 | exact H5 ].
Qed.

End LeverageFacts.

Module SizerFacts.
Import Executor.

(** The guard of [compute_position_size], as a proposition. *)
Lemma size_guard (notional price : Q) :
  Qle_bool notional 0 || Qle_bool price 0 = true <-> notional <= 0 \/ price <= 0.
Proof. rewrite orb_true_iff, !Qle_bool_iff. reflexivity. Qed.

Lemma size_guard_false (notional price : Q) :
  Qle_bool notional 0 || Qle_bool price 0 = false <-> 0 < notional /\ 0 < price.
Proof. rewrite orb_false_iff, !Qle_bool_false. reflexivity. Qed.

(** What the sizer returns when it returns. *)
Definition sized (c : Config) (equity risk_pct price : Q) (symbol : string) : SizeInfo :=
  {| equity := equity;
     risk_amount := equity * risk_pct;
     max_leverage := _max_leverage_for c symbol;
     notional := equity * risk_pct * _max_leverage_for c symbol;
     qty := equity * risk_pct * _max_leverage_for c symbol / price;
     price := price |}.

Lemma compute_position_size_cases (c : Config) (equity risk_pct price : Q) (symbol : string) :
  let notional := equity * risk_pct * _max_leverage_for c symbol in
  (notional <= 0 \/ price <= 0) /\
    compute_position_size c equity risk_pct price symbol = Raise InvalidSizing
  \/
  (0 < notional /\ 0 < price) /\
    compute_position_size c equity risk_pct price symbol
      = Return (sized c equity risk_pct price symbol).
Proof.
  unfold compute_position_size, sized, InvalidSizing. cbv zeta.
  destruct (Qle_bool (equity * risk_pct * _max_leverage_for c symbol) 0 || Qle_bool price 0)
    eqn:G.
  - left. split; [now apply size_guard | reflexivity].
  - right. split; [now apply size_guard_false | reflexivity].
Qed.

End SizerFacts.

(** ** The state-and-exception monad *)

Module MonadFacts.
Import Executor.

Lemma bind_return {A B : Type} (m : M A) (f : A -> M B) (w w' : world) (a : A) :
  m w = (Return a, w') -> (m ≫= f) w = f a w'.
Proof. intros H. unfold mbind, M_bind. now rewrite H. Qed.

Lemma bind_raise {A B : Type} (m : M A) (f : A -> M B) (w w' : world) (e : exn) :
  m w = (Raise e, w') -> (m ≫= f) w = (Raise e, w').
Proof. intros H. unfold mbind, M_bind. now rewrite H. Qed.

End MonadFacts.

(** ** Price resolution *)

Module OracleFacts.
Import Executor.

(** The endpoint [fetch_pyth_price] queries. *)
Definition hermes_url (env : Env) : string :=
  rstrip_slash (PYTH_HERMES_URL (cfg env)) ++ "/api/latest_price_feeds".

(** Mantissa and exponent of a response item, when it carries them. *)
Definition mantissa (item : FeedItem) : option Z := item_price item ≫= px.
Definition exponent (item : FeedItem) : option Z := item_price item ≫= expo.

(** Every registered feed identifier is a non-empty string. *)
Lemma feeds_truthy (symbol id : string) :
  PYTH_FEEDS !! symbol = Some id -> truthy (Some id) = true.
Proof.
  intros H. unfold PYTH_FEEDS in H.
  apply elem_of_list_to_map_2 in H.
  repeat (apply elem_of_cons in H as [H | H]; [injection H as -> ->; reflexivity |]).
  now apply elem_of_nil in H.
Qed.

Lemma fetch_unknown (env : Env) (symbol : string) (w : world) :
  PYTH_FEEDS !! symbol = None ->
  fetch_pyth_price env symbol w
    = (Raise (ValueError ("no pyth feed configured for symbol=" ++ symbol)), w).
Proof. intros H. unfold fetch_pyth_price. now rewrite H. Qed.

Lemma fetch_known (env : Env) (symbol id : string) (w : world) :
  PYTH_FEEDS !! symbol = Some id ->
  fetch_pyth_price env symbol w =
    let w' := add_request (hermes_url env, [id]) w in
    match hermes env (hermes_url env) [id] with
    | Raise e => (Raise e, w')
    | Return [] => (Raise (RuntimeError ("pyth price not found for symbol=" ++ symbol)), w')
    | Return (item :: _) =>
        match mantissa item with
        | None =>
            (Raise (RuntimeError ("pyth price missing 'price' field for " ++ symbol)), w')
        | Some m => (Return (inject_Z m * Qpower 10 (default 0%Z (exponent item))), w')
        end
    end.
Proof.
  intros H. unfold fetch_pyth_price. rewrite H, (feeds_truthy _ _ H).
  change (negb true) with false. cbv iota.
  change (option_list (Some id)) with [id].
  fold (hermes_url env). unfold mbind, M_bind, http_get. cbv beta zeta.
  destruct (hermes env (hermes_url env) [id]) as [[|item rest]|e]; try reflexivity.
  unfold mantissa, exponent.
  destruct item as [[[[m|] ex]|]]; reflexivity.
Qed.

End OracleFacts.

(** ** The intent pipeline *)

Module PipelineFacts.
Import Executor MonadFacts OracleFacts.

(** Step 1 of a run, and the worlds it can leave. *)
Definition tenant_step (env : Env) (intent : Intent) : M unit :=
  ensure_test_user env (user_id_of intent) (test_wallet_of (cfg env)).

(** Step 2 from the world [w1] step 1 left: the signal id and the world
    with the signal row. *)
Definition signal_stored (env : Env) (intent : Intent) (w1 : world) : string * world :=
  let str_id := uuid_str (uuid4_nth env (uuid_count w1)) in
  (str_id,
   add_signal {| signal_id := str_id; signal_symbol := intent_symbol intent;
                 signal_score := 1; signal_p := 9 # 10; signal_e := 9 # 10;
                 signal_r := 9 # 10; signal_v := 9 # 10;
                 signal_created_at := now env |}
              (bump_uuid w1)).

(** The settlement collaborator is unconfigured: [_get_web3] gives [None]. *)
Definition unconfigured (c : Config) : bool :=
  negb (truthy (ARBITRUM_RPC_URL c) && truthy (RELAYER_PK c) && truthy (PONTE_ADDRESS c))
  || negb (web3_installed c).

(** The record a completed run returns. *)
Definition result_of (env : Env) (intent : Intent) (signal_id : string)
    (size : SizeInfo) (tx_hash : string) (w : world) : IntentResult :=
  {| res_intent_id := uuid_str (uuid4_nth env (uuid_count w));
     res_status := "RECEIVED";
     res_message := "intent accepted";
     res_symbol := intent_symbol intent;
     res_user_id := user_id_of intent;
     res_risk_pct := intent_risk_pct intent;
     res_equity := equity size;
     res_price := price size;
     res_size := size;
     res_tx_hash := tx_hash;
     res_signal_id := signal_id |}.

(** What remains of a run from the world [w1] that step 1 left. *)
Definition run_from (env : Env) (intent : Intent) (w1 : world) : py IntentResult * world :=
  match fetch_pyth_price env (intent_symbol intent) (signal_stored env intent w1).2 with
  | (Raise e, w3) => (Raise e, w3)
  | (Return price, w3) =>
      match compute_position_size (cfg env) (get_equity_for_user (user_id_of intent))
              (intent_risk_pct intent) price (intent_symbol intent) with
      | Raise e => (Raise e, w3)
      | Return size =>
          match execute_onchain_trade env (intent_symbol intent)
                  (intent_direction intent) size w3 with
          | (Raise e, w4) => (Raise e, w4)
          | (Return tx_hash, w4) =>
              (Return (result_of env intent (signal_stored env intent w1).1 size tx_hash w4),
               bump_uuid w4)
          end
      end
  end.

(** The states of the spec's state machine that a run goes through,
    read off the outcomes of the steps in the order the source takes
    them: RECEIVED on entry, PRICED once the price came back, SIZED once
    the size did, DISPATCHED once the handle did, FAILED at the first
    raise. *)
Definition trace_from (env : Env) (intent : Intent) (w1 : world) : list PipelineState :=
  match fetch_pyth_price env (intent_symbol intent) (signal_stored env intent w1).2 with
  | (Raise e, _) => [RECEIVED; FAILED e]
  | (Return price, w3) =>
      match compute_position_size (cfg env) (get_equity_for_user (user_id_of intent))
              (intent_risk_pct intent) price (intent_symbol intent) with
      | Raise e => [RECEIVED; PRICED; FAILED e]
      | Return size =>
          match execute_onchain_trade env (intent_symbol intent)
                  (intent_direction intent) size w3 with
          | (Raise e, _) => [RECEIVED; PRICED; SIZED; FAILED e]
          | (Return _, _) => [RECEIVED; PRICED; SIZED; DISPATCHED]
          end
      end
  end.

Definition pipeline_trace (env : Env) (intent : Intent) (w : world) : list PipelineState :=
  if String.eqb (test_wallet_of (cfg env)) "" then
    [RECEIVED; FAILED (RuntimeError "TEST_USER_WALLET or RELAYER_ADDRESS not configured")]
  else
    match tenant_step env intent w with
    | (Raise e, _) => [RECEIVED; FAILED e]
    | (Return _, w1) => trace_from env intent w1
    end.

(** *** Steps 1 and 2 *)

(** The tenant step writes no signal row, no log line and sends nothing,
    whether it returns or raises. *)
Lemma ensure_test_user_frame (env : Env) (user_id test_wallet : string)
    (w w' : world) (r : py unit) :
  ensure_test_user env user_id test_wallet w = (r, w') ->
  log w' = log w /\ http_requests w' = http_requests w /\ signals w' = signals w.
Proof.
  unfold ensure_test_user, begin, mbind, M_bind, get_world, lift_py, uuid4,
    insert_tenant, insert_contract, mret, M_ret.
  destruct (scalar_one_or_none (List.filter _ (tenants w))) as [[t|]|e]; cbn;
    try (intros [= _ <-]; repeat split);
    match goal with |- context [scalar_one_or_none ?l] =>
      destruct (scalar_one_or_none l) as [[c|]|e] end;
    cbn; intros [= _ <-]; repeat split.
Qed.

(** A raise in the tenant step leaves every table as it was. *)
Lemma ensure_test_user_rollback (env : Env) (user_id test_wallet : string)
    (w w' : world) (e : exn) :
  ensure_test_user env user_id test_wallet w = (Raise e, w') ->
  tenants w' = tenants w /\ contracts w' = contracts w /\ signals w' = signals w.
Proof.
  unfold ensure_test_user, begin.
  match goal with |- context [match ?m w with _ => _ end] => destruct (m w) as [[a|e0] w0] end;
    intros [= _ <-]; repeat split.
Qed.

Lemma get_or_create_signal_run (env : Env) (intent : Intent) (w1 : world) :
  get_or_create_signal env intent w1
    = (Return (signal_stored env intent w1).1, (signal_stored env intent w1).2).
Proof. reflexivity. Qed.

(** *** [process_trade_intent], step by step *)

Lemma process_trade_intent_no_wallet (env : Env) (intent : Intent) (w : world) :
  test_wallet_of (cfg env) = "" ->
  process_trade_intent env intent w
    = (Raise (RuntimeError "TEST_USER_WALLET or RELAYER_ADDRESS not configured"), w).
Proof. intros Hw. unfold process_trade_intent. now rewrite Hw. Qed.

Lemma process_trade_intent_tenant_raises (env : Env) (intent : Intent)
    (w w1 : world) (e : exn) :
  test_wallet_of (cfg env) <> "" ->
  tenant_step env intent w = (Raise e, w1) ->
  process_trade_intent env intent w = (Raise e, w1).
Proof.
  intros Hw H1. unfold process_trade_intent.
  apply String.eqb_neq in Hw. rewrite Hw.
  now apply bind_raise.
Qed.

Lemma process_trade_intent_run (env : Env) (intent : Intent) (w w1 : world) (u : unit) :
  test_wallet_of (cfg env) <> "" ->
  tenant_step env intent w = (Return u, w1) ->
  process_trade_intent env intent w = run_from env intent w1.
Proof.
  intros Hw H1. unfold process_trade_intent, run_from.
  apply String.eqb_neq in Hw. rewrite Hw.
  rewrite (bind_return _ _ _ _ _ H1).
  rewrite (bind_return _ _ _ _ _ (get_or_create_signal_run env intent w1)).
  unfold mbind at 1. unfold M_bind at 1.
  destruct (fetch_pyth_price env (intent_symbol intent) (signal_stored env intent w1).2)
    as [[price|e] w3]; [|reflexivity].
  unfold mbind at 1. unfold M_bind at 1. unfold lift_py at 1.
  destruct (compute_position_size _ _ _ price _) as [size|e]; [|reflexivity].
  unfold mbind at 1. unfold M_bind at 1.
  destruct (execute_onchain_trade _ _ _ size w3) as [[tx|e] w4]; reflexivity.
Qed.

Lemma pipeline_trace_run (env : Env) (intent : Intent) (w w1 : world) (u : unit) :
  test_wallet_of (cfg env) <> "" ->
  tenant_step env intent w = (Return u, w1) ->
  pipeline_trace env intent w = trace_from env intent w1.
Proof.
  intros Hw H1. unfold pipeline_trace. apply String.eqb_neq in Hw. now rewrite Hw, H1.
Qed.

(** The trace ends in the state the run's outcome shows. *)
Lemma pipeline_trace_last (env : Env) (intent : Intent) (w : world) :
  last (pipeline_trace env intent w) = Some (final_state (process_trade_intent env intent w).1).
Proof.
  destruct (String.eqb (test_wallet_of (cfg env)) "") eqn:Hw.
  - unfold pipeline_trace. rewrite Hw. apply String.eqb_eq in Hw.
    now rewrite (process_trade_intent_no_wallet _ _ _ Hw).
  - apply String.eqb_neq in Hw.
    destruct (tenant_step env intent w) as [[u|e] w1] eqn:H1.
    + rewrite (pipeline_trace_run _ _ _ _ _ Hw H1), (process_trade_intent_run _ _ _ _ _ Hw H1).
      unfold trace_from, run_from.
      destruct (fetch_pyth_price _ _ _) as [[price|e] w3]; [|reflexivity].
      destruct (compute_position_size _ _ _ _ _) as [size|e]; [|reflexivity].
      destruct (execute_onchain_trade _ _ _ _ _) as [[tx|e] w4]; reflexivity.
    + rewrite (process_trade_intent_tenant_raises _ _ _ _ _ Hw H1).
      unfold pipeline_trace. apply String.eqb_neq in Hw. now rewrite Hw, H1.
Qed.

(** Price resolution makes at most one request and touches nothing else. *)
Lemma fetch_pyth_price_frame (env : Env) (symbol : string) (w w' : world) (r : py Q) :
  fetch_pyth_price env symbol w = (r, w') ->
  log w' = log w /\ uuid_count w' = uuid_count w /\
  tenants w' = tenants w /\ contracts w' = contracts w /\ signals w' = signals w.
Proof.
  destruct (PYTH_FEEDS !! symbol) as [id|] eqn:F.
  - rewrite (fetch_known _ _ _ _ F). cbv zeta.
    destruct (hermes env (hermes_url env) [id]) as [[|item rest]|e];
      [| destruct (mantissa item) |]; intros [= _ <-]; repeat split.
  - rewrite (fetch_unknown _ _ _ F). intros [= _ <-]. repeat split.
Qed.

(** *** The unconfigured dispatch: a warning, a fresh uuid, the stub log line *)

Lemma get_web3_unconfigured (env : Env) (w : world) :
  unconfigured (cfg env) = true ->
  exists warning, _get_web3 env w = (Return None, add_log (LogWarning warning) w).
Proof.
  unfold unconfigured, _get_web3. intros H.
  destruct (negb (truthy (ARBITRUM_RPC_URL (cfg env)) && truthy (RELAYER_PK (cfg env))
                  && truthy (PONTE_ADDRESS (cfg env)))).
  - eexists. reflexivity.
  - simpl in H. rewrite H. eexists. reflexivity.
Qed.

Lemma execute_onchain_trade_unconfigured
    (env : Env) (symbol direction : string) (size : SizeInfo) (w : world) :
  unconfigured (cfg env) = true ->
  exists warning,
    let fake_tx := "0xSTUB-" ++ uuid_hex (uuid4_nth env (uuid_count w)) in
    execute_onchain_trade env symbol direction size w
      = (Return fake_tx,
         add_log (LogStub symbol direction size fake_tx)
                 (bump_uuid (add_log (LogWarning warning) w))).
Proof.
  intros H. destruct (get_web3_unconfigured env w H) as (warning & Hw).
  exists warning. unfold execute_onchain_trade.
  rewrite (bind_return _ _ _ _ _ Hw). reflexivity.
Qed.

(** No stub handle reads as a transaction hash: its third character is
    not a hexadecimal digit. *)
Lemma stub_is_not_tx_hash (hex : string) : is_tx_hash ("0xSTUB-" ++ hex) = false.
Proof. reflexivity. Qed.

(** C4. With the settlement collaborator unconfigured, dispatch never
    raises: it returns the handle [0xSTUB-] followed by a fresh uuid,
    which cannot be read as a transaction hash.  A run of the pipeline
    whose tenant, price and size steps succeeded then returns its record,
    with that handle in [tx_hash], having gone through RECEIVED, PRICED,
    SIZED and DISPATCHED.  (The [status] field of the returned record is
    the acknowledgement string RECEIVED; the states are those of the
    run.) *)
Theorem degraded_dispatch (env : Env) (intent : Intent) (w : world) :
  unconfigured (cfg env) = true ->
  (forall symbol direction size w0,
     exists tx w1,
       execute_onchain_trade env symbol direction size w0 = (Return tx, w1) /\
       tx = "0xSTUB-" ++ uuid_hex (uuid4_nth env (uuid_count w0)) /\
       is_tx_hash tx = false) /\
  (test_wallet_of (cfg env) <> "" ->
   forall w1 price w3 size,
     tenant_step env intent w = (Return tt, w1) ->
     fetch_pyth_price env (intent_symbol intent) (signal_stored env intent w1).2
       = (Return price, w3) ->
     compute_position_size (cfg env) (get_equity_for_user (user_id_of intent))
       (intent_risk_pct intent) price (intent_symbol intent) = Return size ->
     exists res w' warning,
       process_trade_intent env intent w = (Return res, w') /\
       final_state (process_trade_intent env intent w).1 = DISPATCHED /\
       pipeline_trace env intent w = [RECEIVED; PRICED; SIZED; DISPATCHED] /\
       res_status res = "RECEIVED" /\
       res_size res = size /\
       res_tx_hash res = "0xSTUB-" ++ uuid_hex (uuid4_nth env (uuid_count w3)) /\
       is_tx_hash (res_tx_hash res) = false /\
       log w' = (log w3 ++ [LogWarning warning;
                            LogStub (intent_symbol intent) (intent_direction intent) size
                                    (res_tx_hash res)])%list).
Proof.
  intros Hu. split.
  - intros symbol direction size w0.
    destruct (execute_onchain_trade_unconfigured env symbol direction size w0 Hu)
      as (warning & E).
    do 2 eexists. split; [exact E|]. split; [reflexivity | apply stub_is_not_tx_hash].
  - intros Hw w1 price w3 size H1 Hp Hs.
    destruct (execute_onchain_trade_unconfigured env (intent_symbol intent)
                (intent_direction intent) size w3 Hu) as (warning & E).
    cbv zeta in E.
    rewrite (pipeline_trace_run env intent w w1 tt Hw H1).
    rewrite (process_trade_intent_run env intent w w1 tt Hw H1).
    unfold trace_from, run_from. rewrite Hp, Hs, E.
    do 2 eexists. exists warning.
    split; [reflexivity|]. split; [reflexivity|]. split; [reflexivity|].
    split; [reflexivity|]. split; [reflexivity|].
    split; [reflexivity|]. split; [apply stub_is_not_tx_hash|].
    simpl. now rewrite <- app_assoc.
Qed.

(** An unconfigured laboratory run on BTCUSD at 65000: the record comes
    back with the stub handle built from the fourth uuid of the run. *)
Lemma degraded_dispatch_btcusd :
  exists res w',
    process_trade_intent (Demo.lab_env (Return [Demo.btc_item])) Demo.btc_intent
      Demo.empty_world = (Return res, w') /\
    res_tx_hash res = "0xSTUB-00000000000040008000000000000003" /\
    is_tx_hash (res_tx_hash res) = false /\
    qty (res_size res) == 3200 / 65000.
Proof.
  destruct (degraded_dispatch (Demo.lab_env (Return [Demo.btc_item])) Demo.btc_intent
              Demo.empty_world eq_refl) as [_ H].
  edestruct H as (res & w' & warning & E & _ & _ & _ & Es & Et & Eh & _).
  - discriminate.
  - vm_compute. reflexivity.
  - vm_compute. reflexivity.
  - vm_compute. reflexivity.
  - exists res, w'. split; [exact E|]. split; [rewrite Et; vm_compute; reflexivity|].
    split; [exact Eh|]. rewrite Es. vm_compute. reflexivity.
Defined.

(** C8. A failing step ends the run with that step's exception, in the
    world that step left, and the trace goes from the state reached to
    FAILED.  A missing wallet changes nothing.  A failed tenant step
    leaves the tables as they were.  A failed price resolution leaves
    the log and the uuid counter as steps 1 and 2 left them, whatever the
    risk fraction (sizing is not consulted) and with no stub handle drawn
    or logged; in particular an empty feed payload ends the run with the
    feed error right after the one request.  A failed sizing leaves the
    world of the price step; a failed dispatch leaves its own. *)
Theorem pipeline_aborts (env : Env) (intent : Intent) (w : world) :
  let symbol := intent_symbol intent in
  (test_wallet_of (cfg env) = "" ->
     exists e,
       process_trade_intent env intent w = (Raise e, w) /\
       pipeline_trace env intent w = [RECEIVED; FAILED e]) /\
  (test_wallet_of (cfg env) <> "" ->
     (forall e w1,
        tenant_step env intent w = (Raise e, w1) ->
        process_trade_intent env intent w = (Raise e, w1) /\
        pipeline_trace env intent w = [RECEIVED; FAILED e] /\
        tenants w1 = tenants w /\ contracts w1 = contracts w /\ signals w1 = signals w /\
        log w1 = log w /\ http_requests w1 = http_requests w) /\
     (forall w1, tenant_step env intent w = (Return tt, w1) ->
        let w2 := (signal_stored env intent w1).2 in
        (forall e w3,
           fetch_pyth_price env symbol w2 = (Raise e, w3) ->
           process_trade_intent env intent w = (Raise e, w3) /\
           pipeline_trace env intent w = [RECEIVED; FAILED e] /\
           log w3 = log w /\ uuid_count w3 = uuid_count w2) /\
        (forall id,
           PYTH_FEEDS !! symbol = Some id ->
           hermes env (hermes_url env) [id] = Return [] ->
           process_trade_intent env intent w
             = (Raise (RuntimeError ("pyth price not found for symbol=" ++ symbol)),
                add_request (hermes_url env, [id]) w2) /\
           pipeline_trace env intent w
             = [RECEIVED;
                FAILED (RuntimeError ("pyth price not found for symbol=" ++ symbol))]) /\
        (forall price w3 e,
           fetch_pyth_price env symbol w2 = (Return price, w3) ->
           compute_position_size (cfg env) (get_equity_for_user (user_id_of intent))
             (intent_risk_pct intent) price symbol = Raise e ->
           process_trade_intent env intent w = (Raise e, w3) /\
           pipeline_trace env intent w = [RECEIVED; PRICED; FAILED e] /\
           log w3 = log w /\ uuid_count w3 = uuid_count w2) /\
        (forall price w3 size e w4,
           fetch_pyth_price env symbol w2 = (Return price, w3) ->
           compute_position_size (cfg env) (get_equity_for_user (user_id_of intent))
             (intent_risk_pct intent) price symbol = Return size ->
           execute_onchain_trade env symbol (intent_direction intent) size w3
             = (Raise e, w4) ->
           process_trade_intent env intent w = (Raise e, w4) /\
           pipeline_trace env intent w = [RECEIVED; PRICED; SIZED; FAILED e]))).
Proof.
  cbv zeta. split.
  - intros Hw. eexists. split; [now apply process_trade_intent_no_wallet|].
    unfold pipeline_trace. now rewrite Hw.
  - intros Hw. split.
    + intros e w1 H1.
      split; [now apply process_trade_intent_tenant_raises|].
      split.
      { unfold pipeline_trace. apply String.eqb_neq in Hw. now rewrite Hw, H1. }
      destruct (ensure_test_user_rollback _ _ _ _ _ _ H1) as (Ht & Hc & Hs).
      destruct (ensure_test_user_frame _ _ _ _ _ _ H1) as (Hl & Hr & _).
      repeat split; assumption.
    + intros w1 H1.
      destruct (ensure_test_user_frame _ _ _ _ _ _ H1) as (Hl1 & _).
      rewrite (process_trade_intent_run env intent w w1 tt Hw H1).
      rewrite (pipeline_trace_run env intent w w1 tt Hw H1).
      unfold run_from, trace_from.
      split; [|split; [|split]].
      * intros e w3 Hp. rewrite Hp.
        destruct (fetch_pyth_price_frame _ _ _ _ _ Hp) as (Hl & Hc & _).
        repeat split; [|exact Hc]. rewrite Hl. exact Hl1.
      * intros id Hf Hh.
        rewrite (fetch_known _ _ _ _ Hf). cbv zeta. rewrite Hh. split; reflexivity.
      * intros price w3 e Hp Hs. rewrite Hp, Hs.
        destruct (fetch_pyth_price_frame _ _ _ _ _ Hp) as (Hl & Hc & _).
        repeat split; [|exact Hc]. rewrite Hl. exact Hl1.
      * intros price w3 size e w4 Hp Hs Hd. rewrite Hp, Hs, Hd. split; reflexivity.
Qed.

(** The spec's scenario: Hermes answers BTCUSD with an empty payload.
    The run raises the feed error; the world holds the tenant, contract
    and signal rows of steps 1 and 2 and the one request, and nothing of
    the dispatch step (empty log, three uuids drawn). *)
Lemma pipeline_aborts_empty_payload :
  exists w',
    process_trade_intent (Demo.lab_env (Return [])) Demo.btc_intent Demo.empty_world
      = (Raise (RuntimeError "pyth price not found for symbol=BTCUSD"), w') /\
    pipeline_trace (Demo.lab_env (Return [])) Demo.btc_intent Demo.empty_world
      = [RECEIVED; FAILED (RuntimeError "pyth price not found for symbol=BTCUSD")] /\
    log w' = [] /\ uuid_count w' = 3%nat /\
    length (http_requests w') = 1%nat /\
    length (tenants w') = 1%nat /\ length (contracts w') = 1%nat /\
    length (signals w') = 1%nat.
Proof.
  destruct (pipeline_aborts (Demo.lab_env (Return [])) Demo.btc_intent Demo.empty_world)
    as [_ H].
  destruct H as (_ & H); [discriminate|].
  edestruct H as (_ & H2 & _); [vm_compute; reflexivity|].
  destruct (H2 "0xe62df6c8b4a85fe1a67db44dc12de5db330f7ac66b72dc658afedf0f4a415b43")
    as [Hrun Htrace]; [vm_compute; reflexivity | reflexivity |].
  eexists. split; [exact Hrun|]. split; [exact Htrace|].
  vm_compute. repeat split.
Defined.

End PipelineFacts.

(** ** The risk veto and the reference scorer *)

Module ScorerFacts.
Import Coordinator.






(** *** The ordered dictionary *)

Lemma dict_get_set {V : Type} (d : odict V) (k k' : string) (x : V) :
  dict_get (dict_set d k x) k' = if String.eqb k k' then Some x else dict_get d k'.
Proof.
  induction d as [|[k0 x0] d IH]; simpl.
  - reflexivity.
  - destruct (String.eqb k0 k) eqn:E0; simpl.
    + apply String.eqb_eq in E0. subst k0.
      destruct (String.eqb k k'); reflexivity.
    + rewrite IH. destruct (String.eqb k0 k') eqn:E1; [|reflexivity].
      apply String.eqb_eq in E1. subst k0.
      now rewrite String.eqb_sym, E0.
Qed.





(** *** The scorer's loop *)

Section Scorer.
Variable prices : gmap string Q.

(** One iteration of the loop of [mock_coscienza_score]. *)
Definition score_step (out : odict Signal) (s : string) : odict Signal :=
  dict_set out s (score_of (default 1 (prices !! s))).

Lemma mock_coscienza_score_fold (symbols : list string) :
  mock_coscienza_score symbols prices = fold_left score_step symbols [].
Proof. reflexivity. Qed.



Lemma loop_get_other (symbols : list string) (acc : odict Signal) (k : string) :
  k ∉ symbols -> dict_get (fold_left score_step symbols acc) k = dict_get acc k.
Proof.
  revert acc. induction symbols as [|s symbols IH]; intros acc H; simpl.
  - reflexivity.
  - apply not_elem_of_cons in H as [Hne Hk].
    rewrite (IH _ Hk). unfold score_step. rewrite dict_get_set.
    destruct (String.eqb s k) eqn:E; [|reflexivity].
    apply String.eqb_eq in E. congruence.
Qed.

Lemma loop_get (symbols : list string) (acc : odict Signal) (k : string) :
  k ∈ symbols ->
  dict_get (fold_left score_step symbols acc) k = Some (score_of (default 1 (prices !! k))).
Proof.
  revert acc. induction symbols as [|s symbols IH]; intros acc H; simpl.
  - now apply elem_of_nil in H.
  - destruct (decide (k ∈ symbols)) as [Hin | Hout].
    + now apply IH.
    + apply elem_of_cons in H as [-> | H]; [|tauto].
      rewrite (loop_get_other _ _ _ Hout). unfold score_step.
      now rewrite dict_get_set, String.eqb_refl.
Qed.



End Scorer.



End ScorerFacts.

(** ** Ranking *)

Module RankFacts.
Import Coordinator.

(** The tick as written: with the mock radar, prices and scorer every
    one of the five candidates scores below the threshold, so no job is
    enqueued whatever the tenants. *)
Lemma tick_mock_all_vetoed (rows : list TenantRef) (clock : nat -> string) :
  rank_and_risk (mock_coscienza_score (mock_radar SYMBOLS)
                   (mock_pyth_prices (mock_radar SYMBOLS))) 3 = [] /\
  tick_jobs rows clock = [].
Proof.
  assert (E : rank_and_risk (mock_coscienza_score (mock_radar SYMBOLS)
                               (mock_pyth_prices (mock_radar SYMBOLS))) 3 = []).
  { vm_compute. reflexivity. }
  split; [exact E|]. unfold tick_jobs. cbv zeta. now rewrite E.
Qed.

End RankFacts.

(** ** Comparisons and signs of doubles *)

Module FloatFacts.

(** IEEE comparisons are specified on [spec_float] by [SFcompare].  On
    the doubles that are numbers it is a total preorder; this is shown
    through a key into triples of integers ordered lexicographically. *)

(** A key that orders the doubles that are numbers: class first
    (negative infinity, negative, zero, positive, positive infinity),
    then exponent and mantissa. *)
Definition code (x : spec_float) : Z * (Z * Z) :=
  match x with
  | S754_nan => (0, (0, 0))
  | S754_zero _ => (0, (0, 0))
  | S754_infinity s => (if s then -2 else 2, (0, 0))
  | S754_finite s m e => if s then (-1, (- e, Zneg m)) else (1, (e, Zpos m))
  end%Z.

Definition lex (a b : Z * (Z * Z)) : comparison :=
  match (a.1 ?= b.1)%Z with
  | Eq => match (a.2.1 ?= b.2.1)%Z with
          | Eq => (a.2.2 ?= b.2.2)%Z
          | c => c
          end
  | c => c
  end.

Lemma SFcompare_lex (x y : spec_float) :
  x <> S754_nan -> y <> S754_nan -> SFcompare x y = Some (lex (code x) (code y)).
Proof.
  intros Hx Hy.
  destruct x as [sx|sx| |sx mx ex], y as [sy|sy| |sy my ey]; try congruence;
    try (destruct sx; reflexivity); try (destruct sy; reflexivity);
    try (destruct sx, sy; reflexivity).
  destruct sx, sy; try reflexivity; unfold lex; simpl.
  rewrite Z.compare_opp.
  rewrite (Z.compare_antisym ex ey). destruct (ex ?= ey)%Z; simpl; reflexivity.
Qed.

Lemma lex_refl a : lex a a = Eq.
Proof. unfold lex. now rewrite !Z.compare_refl. Qed.

Lemma lex_antisym a b : lex b a = CompOpp (lex a b).
Proof.
  unfold lex. rewrite (Z.compare_antisym a.1 b.1), (Z.compare_antisym a.2.1 b.2.1),
    (Z.compare_antisym a.2.2 b.2.2).
  destruct (a.1 ?= b.1)%Z, (a.2.1 ?= b.2.1)%Z, (a.2.2 ?= b.2.2)%Z; reflexivity.
Qed.

Ltac lex_cases :=
  unfold lex;
  repeat match goal with
         | |- context [(?x ?= ?y)%Z] => destruct (Z.compare_spec x y)
         | H : context [(?x ?= ?y)%Z] |- _ => destruct (Z.compare_spec x y)
         end.

Lemma lex_trans a b c : lex a b <> Gt -> lex b c <> Gt -> lex a c <> Gt.
Proof.
  destruct a as [a1 [a2 a3]], b as [b1 [b2 b3]], c as [c1 [c2 c3]]. simpl.
  lex_cases; simpl in *; try congruence; try lia.
Qed.

Lemma lex_lt_trans a b c : lex a b = Lt -> lex b c <> Gt -> lex a c = Lt.
Proof.
  destruct a as [a1 [a2 a3]], b as [b1 [b2 b3]], c as [c1 [c2 c3]]. simpl.
  lex_cases; simpl in *; try congruence; try lia.
Qed.


Local Open Scope float_scope.

(** *** NaN *)

Lemma SFcompare_nan_l (y : spec_float) : SFcompare S754_nan y = None.
Proof. reflexivity. Qed.

Lemma SFcompare_nan_r (x : spec_float) : SFcompare x S754_nan = None.
Proof. now destruct x. Qed.

Lemma is_nan_spec (x : float) : is_nan x = true <-> Prim2SF x = S754_nan.
Proof.
  unfold is_nan. rewrite FloatAxioms.eqb_spec. unfold SFeqb.
  destruct (Prim2SF x) as [s|s| |s m e] eqn:E.
  - simpl. split; discriminate.
  - destruct s; simpl; split; discriminate.
  - simpl. split; reflexivity.
  - rewrite SFcompare_lex, lex_refl by discriminate. simpl. split; discriminate.
Qed.

Lemma is_num_spec (x : float) : is_nan x = false <-> Prim2SF x <> S754_nan.
Proof.
  rewrite <- is_nan_spec. destruct (is_nan x); split; congruence.
Qed.

(** The three comparisons through the key. *)
Lemma leb_lex (x y : float) :
  is_nan x = false -> is_nan y = false ->
  (x <=? y) = true <-> lex (code (Prim2SF x)) (code (Prim2SF y)) <> Gt.
Proof.
  intros Hx Hy. apply is_num_spec in Hx, Hy.
  rewrite FloatAxioms.leb_spec. unfold SFleb. rewrite (SFcompare_lex _ _ Hx Hy).
  destruct (lex _ _); split; congruence.
Qed.

Lemma ltb_lex (x y : float) :
  is_nan x = false -> is_nan y = false ->
  (x <? y) = true <-> lex (code (Prim2SF x)) (code (Prim2SF y)) = Lt.
Proof.
  intros Hx Hy. apply is_num_spec in Hx, Hy.
  rewrite FloatAxioms.ltb_spec. unfold SFltb. rewrite (SFcompare_lex _ _ Hx Hy).
  destruct (lex _ _); split; congruence.
Qed.

Lemma eqb_lex (x y : float) :
  is_nan x = false -> is_nan y = false ->
  (x =? y) = true <-> lex (code (Prim2SF x)) (code (Prim2SF y)) = Eq.
Proof.
  intros Hx Hy. apply is_num_spec in Hx, Hy.
  rewrite FloatAxioms.eqb_spec. unfold SFeqb. rewrite (SFcompare_lex _ _ Hx Hy).
  destruct (lex _ _); split; congruence.
Qed.

(** A comparison that holds compares numbers. *)
Lemma leb_num (x y : float) : (x <=? y) = true -> is_nan x = false /\ is_nan y = false.
Proof.
  rewrite FloatAxioms.leb_spec. unfold SFleb. intros H.
  split; apply is_num_spec; intros E; rewrite E in H;
    [rewrite SFcompare_nan_l in H | rewrite SFcompare_nan_r in H]; discriminate.
Qed.

Lemma ltb_num (x y : float) : (x <? y) = true -> is_nan x = false /\ is_nan y = false.
Proof.
  rewrite FloatAxioms.ltb_spec. unfold SFltb. intros H.
  split; apply is_num_spec; intros E; rewrite E in H;
    [rewrite SFcompare_nan_l in H | rewrite SFcompare_nan_r in H]; discriminate.
Qed.

Lemma eqb_num (x y : float) : (x =? y) = true -> is_nan x = false /\ is_nan y = false.
Proof.
  rewrite FloatAxioms.eqb_spec. unfold SFeqb. intros H.
  split; apply is_num_spec; intros E; rewrite E in H;
    [rewrite SFcompare_nan_l in H | rewrite SFcompare_nan_r in H]; discriminate.
Qed.

Lemma leb_refl (x : float) : is_nan x = false -> (x <=? x) = true.
Proof. intros H. apply leb_lex; [exact H..|]. now rewrite lex_refl. Qed.

Lemma leb_trans (x y z : float) :
  (x <=? y) = true -> (y <=? z) = true -> (x <=? z) = true.
Proof.
  intros H1 H2.
  destruct (leb_num _ _ H1) as [Hx Hy]. destruct (leb_num _ _ H2) as [_ Hz].
  apply leb_lex in H1, H2; try assumption. apply leb_lex; try assumption.
  now apply lex_trans with (code (Prim2SF y)).
Qed.

Lemma ltb_leb (x y : float) : (x <? y) = true -> (x <=? y) = true.
Proof.
  intros H. destruct (ltb_num _ _ H) as [Hx Hy].
  apply ltb_lex in H; try assumption. apply leb_lex; try assumption. congruence.
Qed.

(** On numbers [<] is the negation of the converse [<=]. *)
Lemma ltb_negb_leb (x y : float) :
  is_nan x = false -> is_nan y = false -> (x <? y) = negb (y <=? x).
Proof.
  intros Hx Hy.
  pose proof (ltb_lex x y Hx Hy) as H1. pose proof (leb_lex y x Hy Hx) as H2.
  rewrite (lex_antisym (code (Prim2SF x)) (code (Prim2SF y))) in H2.
  destruct (x <? y), (y <=? x); simpl; try reflexivity; exfalso;
    destruct (lex (code (Prim2SF x)) (code (Prim2SF y))); simpl in *;
    intuition congruence.
Qed.

Lemma leb_ltb_false (x y : float) : (y <=? x) = true -> (x <? y) = false.
Proof.
  intros H. destruct (leb_num _ _ H) as [Hy Hx].
  rewrite (ltb_negb_leb _ _ Hx Hy), H. reflexivity.
Qed.

Lemma eqb_leb (x y : float) : (x =? y) = (x <=? y) && (y <=? x).
Proof.
  destruct (is_nan x) eqn:Hx; [|destruct (is_nan y) eqn:Hy].
  - apply is_nan_spec in Hx. rewrite FloatAxioms.eqb_spec, !FloatAxioms.leb_spec. unfold SFeqb, SFleb.
    now rewrite Hx, SFcompare_nan_l.
  - apply is_nan_spec in Hy. rewrite FloatAxioms.eqb_spec, !FloatAxioms.leb_spec. unfold SFeqb, SFleb.
    now rewrite Hy, SFcompare_nan_r.
  - pose proof (eqb_lex x y Hx Hy) as H0.
    pose proof (leb_lex x y Hx Hy) as H1. pose proof (leb_lex y x Hy Hx) as H2.
    rewrite (lex_antisym (code (Prim2SF x)) (code (Prim2SF y))) in H2.
    destruct (x =? y), (x <=? y), (y <=? x); simpl; try reflexivity; exfalso;
      destruct (lex (code (Prim2SF x)) (code (Prim2SF y))); simpl in *;
      intuition congruence.
Qed.

(** What a failed [<=] means: the converse strict comparison, or a NaN. *)
Lemma leb_false (x y : float) :
  (x <=? y) = false <-> (y <? x) = true \/ is_nan x = true \/ is_nan y = true.
Proof.
  destruct (is_nan x) eqn:Hx; [|destruct (is_nan y) eqn:Hy].
  - split; [tauto|]. intros _. destruct (x <=? y) eqn:E; [|reflexivity].
    apply leb_num in E as [E _]. congruence.
  - split; [tauto|]. intros _. destruct (x <=? y) eqn:E; [|reflexivity].
    apply leb_num in E as [_ E]. congruence.
  - rewrite (ltb_negb_leb _ _ Hy Hx). destruct (x <=? y); simpl; split;
      try tauto; try discriminate. intros [H|[H|H]]; discriminate.
Qed.

Lemma eqb_num_refl (x : float) : is_nan x = false -> (x =? x) = true.
Proof. intros H. rewrite eqb_leb, (leb_refl _ H). reflexivity. Qed.

(** Doubles that compare equal compare alike with every double. *)
Lemma eqb_class (x y q : float) : (x =? y) = true -> (x =? q) = (y =? q).
Proof.
  rewrite !eqb_leb. intros H. apply andb_true_iff in H as [Hxy Hyx].
  destruct (y <=? q) eqn:E1; destruct (q <=? y) eqn:E2; simpl.
  - now rewrite (leb_trans _ _ _ Hxy E1), (leb_trans _ _ _ E2 Hyx).
  - rewrite (leb_trans _ _ _ Hxy E1). simpl.
    destruct (q <=? x) eqn:E3; [|reflexivity].
    now rewrite (leb_trans _ _ _ E3 Hxy) in E2.
  - destruct (x <=? q) eqn:E3; [|reflexivity].
    now rewrite (leb_trans _ _ _ Hyx E3) in E1.
  - destruct (x <=? q) eqn:E3; [|reflexivity].
    now rewrite (leb_trans _ _ _ Hyx E3) in E1.
Qed.

(** *** Signs *)

Lemma binary_round_aux_sign (s : bool) (m e : Z) (l : location) :
  match binary_round_aux prec emax s m e l with
  | S754_zero s' | S754_infinity s' | S754_finite s' _ _ => s' = s
  | S754_nan => True
  end.
Proof.
  unfold binary_round_aux.
  destruct (shr_fexp prec emax m e l) as [mrs' e'].
  destruct (shr_fexp prec emax _ e' loc_Exact) as [mrs'' e''].
  destruct (shr_m mrs''); [reflexivity| |exact I].
  destruct (e'' <=? emax - prec)%Z; reflexivity.
Qed.

(** A positive double is a positive finite number or plus infinity. *)
Lemma positive_shape (x : float) :
  (0 <? x) = true ->
  (exists m e, Prim2SF x = S754_finite false m e) \/ Prim2SF x = S754_infinity false.
Proof.
  rewrite FloatAxioms.ltb_spec. change (Prim2SF 0) with (S754_zero false).
  destruct (Prim2SF x) as [s|s| |s m e]; simpl; try discriminate.
  - destruct s; [discriminate|]. now right.
  - destruct s; [discriminate|]. left. now exists m, e.
Qed.

(** The quotient of two positive doubles is never negative. *)
Lemma div_positive (n d : float) :
  (0 <? n) = true -> (0 <? d) = true -> (n / d <? 0) = false.
Proof.
  intros Hn Hd. rewrite FloatAxioms.ltb_spec, FloatAxioms.div_spec. change (Prim2SF 0) with (S754_zero false).
  destruct (positive_shape _ Hn) as [(mn & en & ->) | ->];
    destruct (positive_shape _ Hd) as [(md & ed & ->) | ->]; try reflexivity.
  unfold SF64div, SFdiv.
  destruct (SFdiv_core_binary prec emax (Z.pos mn) en (Z.pos md) ed) as [[mz ez] lz].
  pose proof (binary_round_aux_sign (xorb false false) mz ez lz) as H.
  destruct (binary_round_aux prec emax (xorb false false) mz ez lz) as [s|s| |s m e];
    simpl in H; try subst s; reflexivity.
Qed.

End FloatFacts.

(** ** The sizer on doubles *)

Module Sizer64.
Import Binary64 FloatFacts.
Local Open Scope float_scope.

Lemma is_nan_zero : is_nan 0 = false.
Proof. reflexivity. Qed.

(** A strict comparison with a NaN fails. *)
Lemma ltb_nan_l (x y : float) : is_nan x = true -> (x <? y) = false.
Proof.
  intros H. destruct (x <? y) eqn:E; [|reflexivity].
  apply ltb_num in E as [E _]. congruence.
Qed.

(** A quotient with a NaN operand is a NaN. *)
Lemma div_nan (n d : float) :
  is_nan n = true \/ is_nan d = true -> is_nan (n / d) = true.
Proof.
  intros H. apply is_nan_spec. rewrite FloatAxioms.div_spec.
  destruct H as [H | H]; apply is_nan_spec in H; rewrite H.
  - reflexivity.
  - now destruct (Prim2SF n).
Qed.

(** What passes one half of the guard: a positive number or a NaN. *)
Lemma not_leb_zero (x : float) :
  (x <=? 0) = false <-> (0 <? x) = true \/ is_nan x = true.
Proof.
  rewrite leb_false, is_nan_zero. split; [|tauto].
  intros [H | [H | H]]; [now left | now right | discriminate].
Qed.

(** What the sizer returns when it returns. *)
Definition rounded_size (c : Leverage) (equity risk_pct price : float) (symbol : string)
    : SizeInfo :=
  {| equity := equity;
     risk_amount := equity * risk_pct;
     max_leverage := _max_leverage_for c symbol;
     notional := equity * risk_pct * _max_leverage_for c symbol;
     qty := equity * risk_pct * _max_leverage_for c symbol / price;
     price := price |}.

Lemma sizer_cases (c : Leverage) (equity risk_pct price : float)
    (symbol : string) :
  let notional := equity * risk_pct * _max_leverage_for c symbol in
  ((notional <=? 0) = true \/ (price <=? 0) = true) /\
    compute_position_size c equity risk_pct price symbol = Raise InvalidSizing
  \/
  ((notional <=? 0) = false /\ (price <=? 0) = false) /\
    compute_position_size c equity risk_pct price symbol
      = Return (rounded_size c equity risk_pct price symbol).
Proof.
  unfold compute_position_size, rounded_size. cbv zeta.
  destruct (equity * risk_pct * _max_leverage_for c symbol <=? 0) eqn:Gn; simpl.
  - left. split; [now left | reflexivity].
  - destruct (price <=? 0) eqn:Gp.
    + left. split; [now right | reflexivity].
    + right. split; [now split | reflexivity].
Qed.

(** The quotient the sizer returns is never negative. *)
Lemma qty_not_negative (n d : float) :
  (n <=? 0) = false -> (d <=? 0) = false -> (n / d <? 0) = false.
Proof.
  intros Hn Hd. apply not_leb_zero in Hn, Hd.
  destruct Hn as [Hn | Hn]; [destruct Hd as [Hd | Hd]|].
  - now apply div_positive.
  - apply ltb_nan_l, div_nan. now right.
  - apply ltb_nan_l, div_nan. now left.
Qed.

(** A quotient that is zero comes from two positive numbers. *)
Lemma qty_zero (n d : float) :
  (n <=? 0) = false -> (d <=? 0) = false -> (n / d =? 0) = true ->
  (0 <? n) = true /\ (0 <? d) = true.
Proof.
  intros Hn Hd Hz. apply not_leb_zero in Hn, Hd. apply eqb_num in Hz as [Hz _].
  assert (Hnum : is_nan n = false /\ is_nan d = false).
  { destruct (is_nan n) eqn:En.
    - rewrite div_nan in Hz by now left. discriminate.
    - destruct (is_nan d) eqn:Ed; [|now split].
      rewrite div_nan in Hz by now right. discriminate. }
  destruct Hnum as [En Ed]. rewrite En in Hn. rewrite Ed in Hd.
  split; [destruct Hn | destruct Hd]; congruence.
Qed.

(** C5, as the code has it.  On doubles the sizer raises
    [InvalidSizing] exactly when the computed notional, the rounded
    product [equity * risk_pct * max_leverage], or the price compares
    [<= 0]; it raises nothing else and a raise produces no record.  A
    notional or price that is a NaN passes the guard.  The quantity
    returned is the rounded quotient [notional / price]: it is never
    negative, and when it is zero both notional and price are positive
    numbers, so that a zero quantity comes from the underflow of a
    positive quotient and never from a zero or negative input. *)
Theorem sizing_fails_iff (c : Leverage) (equity risk_pct price : float) (symbol : string) :
  let notional := equity * risk_pct * _max_leverage_for c symbol in
  let run := compute_position_size c equity risk_pct price symbol in
  (run = Raise InvalidSizing <-> (notional <=? 0) = true \/ (price <=? 0) = true) /\
  (forall e, run = Raise e -> e = InvalidSizing) /\
  (forall s, run = Return s ->
     ((0 <? notional) = true \/ is_nan notional = true) /\
     ((0 <? price) = true \/ is_nan price = true) /\
     qty s = notional / price /\
     (qty s <? 0) = false /\
     ((qty s =? 0) = true -> (0 <? notional) = true /\ (0 <? price) = true)).
Proof.
  cbv zeta.
  destruct (sizer_cases c equity risk_pct price symbol)
    as [[Hbad ->] | [[Hn Hp] ->]].
  - split; [|split].
    + split; [intros _; exact Hbad | reflexivity].
    + now intros e [= <-].
    + discriminate.
  - split; [|split].
    + split; [discriminate|]. intros [H | H]; congruence.
    + discriminate.
    + intros s [= <-]. simpl.
      split; [now apply not_leb_zero|]. split; [now apply not_leb_zero|].
      split; [reflexivity|]. split; [now apply qty_not_negative|].
      now apply qty_zero.
Qed.

(** 5e-324, the smallest positive double. *)
Definition tiny : float := 0x1p-1074.

(** C5 as stated fails: with equity 10000, a risk fraction of 5e-324
    and a price of 1048576 the notional is positive, the guard passes
    and the sizer returns the quantity 0.0. *)
Lemma sizing_returns_zero_qty :
  (0 <? tiny) = true /\ (tiny <=? 1) = true /\ (0 <? 1048576) = true /\
  exists s,
    compute_position_size default_leverage 10000 tiny 1048576 "EURUSD" = Return s /\
    (0 <? notional s) = true /\ (qty s =? 0) = true.
Proof.
  split; [reflexivity|]. split; [reflexivity|]. split; [reflexivity|].
  eexists. split; [vm_compute; reflexivity|]. split; reflexivity.
Qed.





End Sizer64.

(** ** Price resolution on doubles *)

Module Oracle64.
Import Binary64.

(** The endpoint [fetch_pyth_price] queries. *)
Definition request_url (pf : Platform) : string :=
  Executor.rstrip_slash (PYTH_HERMES_URL pf) ++ "/api/latest_price_feeds".

(** The mantissa of a response item, when the item has one that is not
    [null], and its exponent, 0 when the item has none. *)
Definition mantissa_of (item : FeedItem) : option Json :=
  match item_price item ≫= px with
  | Some JNull => None
  | o => o
  end.

Definition exponent_of (item : FeedItem) : Json :=
  default (JInt 0) (item_price item ≫= expo).

Lemma resolution_unknown (pf : Platform) (symbol : string) (w : Executor.world) :
  Executor.PYTH_FEEDS !! symbol = None ->
  fetch_pyth_price pf symbol w
    = (Raise (ValueError ("no pyth feed configured for symbol=" ++ symbol)), w).
Proof. intros H. unfold fetch_pyth_price. now rewrite H. Qed.

Lemma resolution_known (pf : Platform) (symbol id : string) (w : Executor.world) :
  Executor.PYTH_FEEDS !! symbol = Some id ->
  fetch_pyth_price pf symbol w =
    let w' := Executor.add_request (request_url pf, [id]) w in
    match hermes pf (request_url pf) [id] with
    | Raise e => (Raise e, w')
    | Return [] => (Raise (RuntimeError ("pyth price not found for symbol=" ++ symbol)), w')
    | Return (item :: _) =>
        match mantissa_of item with
        | None =>
            (Raise (RuntimeError ("pyth price missing 'price' field for " ++ symbol)), w')
        | Some px => (price_of pf px (exponent_of item), w')
        end
    end.
Proof.
  intros H. unfold fetch_pyth_price. rewrite H, (OracleFacts.feeds_truthy _ _ H).
  change (negb true) with false. cbv iota.
  change (option_list (Some id)) with [id].
  fold (request_url pf). cbv zeta.
  destruct (hermes pf (request_url pf) [id]) as [[|item rest]|e]; try reflexivity.
  unfold mantissa_of, exponent_of.
  destruct item as [[[px0 ex]|]]; [destruct px0 as [[]|]|]; reflexivity.
Qed.

(** The three operations of the price expression, in the order Python
    runs them, and how the expression ends. *)
Lemma price_of_cases (pf : Platform) (px expo : Json) :
  match price_of pf px expo with
  | Return x =>
      exists m ex scale,
        py_float pf px = Return m /\ py_float pf expo = Return ex /\
        float_pow pf 10 ex = Return scale /\ x = (m * scale)%float
  | Raise e =>
      py_float pf px = Raise e \/
      (exists m, py_float pf px = Return m /\
         (py_float pf expo = Raise e \/
          exists ex, py_float pf expo = Return ex /\ float_pow pf 10 ex = Raise e))
  end.
Proof.
  unfold price_of.
  destruct (py_float pf px) as [m|e1] eqn:E1; [|now left].
  destruct (py_float pf expo) as [ex|e2] eqn:E2;
    [|right; exists m; split; [reflexivity | now left]].
  destruct (float_pow pf 10 ex) as [scale|e3] eqn:E3.
  - exists m, ex, scale. now repeat split.
  - right. exists m. split; [reflexivity|]. right. now exists ex.
Qed.

(** C3, as the code has it.  An unregistered symbol raises the
    [ValueError] for an unconfigured feed before any request is made.
    For a registered symbol one request is made; a transport error
    propagates; an empty payload and a first item whose mantissa is
    absent or null raise the two [RuntimeError]s of the feed.
    Otherwise the exponent counts as 0 when the item has none, and the
    call ends as the expression [float(px) * (10 ** float(expo))] ends:
    it returns the rounded product of the two doubles when the two
    conversions and the power return, and it raises what the first of
    them to fail raises, an [OverflowError] when the power is out of
    range. *)
Theorem price_resolution (pf : Platform) (symbol : string) (w : Executor.world) :
  (Executor.PYTH_FEEDS !! symbol = None ->
     fetch_pyth_price pf symbol w
       = (Raise (ValueError ("no pyth feed configured for symbol=" ++ symbol)), w)) /\
  (forall id, Executor.PYTH_FEEDS !! symbol = Some id ->
     let w' := Executor.add_request (request_url pf, [id]) w in
     (forall e, hermes pf (request_url pf) [id] = Raise e ->
        fetch_pyth_price pf symbol w = (Raise e, w')) /\
     (hermes pf (request_url pf) [id] = Return [] ->
        fetch_pyth_price pf symbol w
          = (Raise (RuntimeError ("pyth price not found for symbol=" ++ symbol)), w')) /\
     (forall item rest, hermes pf (request_url pf) [id] = Return (item :: rest) ->
        (mantissa_of item = None ->
           fetch_pyth_price pf symbol w
             = (Raise (RuntimeError ("pyth price missing 'price' field for " ++ symbol)),
                w')) /\
        (forall px, mantissa_of item = Some px ->
           (fetch_pyth_price pf symbol w).2 = w' /\
           (forall m ex scale,
              py_float pf px = Return m -> py_float pf (exponent_of item) = Return ex ->
              float_pow pf 10 ex = Return scale ->
              fetch_pyth_price pf symbol w = (Return (m * scale)%float, w')) /\
           (forall x, (fetch_pyth_price pf symbol w).1 = Return x ->
              exists m ex scale,
                py_float pf px = Return m /\ py_float pf (exponent_of item) = Return ex /\
                float_pow pf 10 ex = Return scale /\ x = (m * scale)%float) /\
           (forall e, (fetch_pyth_price pf symbol w).1 = Raise e ->
              py_float pf px = Raise e \/
              (exists m, py_float pf px = Return m /\
                 (py_float pf (exponent_of item) = Raise e \/
                  exists ex, py_float pf (exponent_of item) = Return ex /\
                             float_pow pf 10 ex = Raise e)))))).
Proof.
  split; [apply resolution_unknown|].
  intros id H. cbv zeta. rewrite (resolution_known _ _ _ _ H). cbv zeta.
  split; [|split].
  - now intros e ->.
  - now intros ->.
  - intros item rest ->. split.
    + now intros ->.
    + intros px ->. simpl.
      pose proof (price_of_cases pf px (exponent_of item)) as Hc.
      split; [reflexivity|]. split; [|split].
      * intros m ex scale Hm He Hs. unfold price_of. now rewrite Hm, He, Hs.
      * intros x E. now rewrite E in Hc.
      * intros e E. now rewrite E in Hc.
Qed.

Definition btc_feed : string :=
  "0xe62df6c8b4a85fe1a67db44dc12de5db330f7ac66b72dc658afedf0f4a415b43".

Definition btc_request (w : Executor.world) : Executor.world :=
  Executor.add_request ("https://hermes.pyth.network/api/latest_price_feeds", [btc_feed]) w.

(** BTCUSD quoted with mantissa "6500000000000" and exponent -8 resolves
    to the double 65000 after one request. *)
Lemma price_resolution_btcusd :
  fetch_pyth_price (Demo.lab_platform (Return [Demo.btc_quote])) "BTCUSD" Demo.empty_world
    = (Return 65000%float, btc_request Demo.empty_world).
Proof.
  pose proof (price_resolution (Demo.lab_platform (Return [Demo.btc_quote])) "BTCUSD"
                Demo.empty_world) as [_ H].
  destruct (H btc_feed) as (_ & _ & H3); [vm_compute; reflexivity|].
  destruct (H3 Demo.btc_quote [] eq_refl) as [_ H4].
  destruct (H4 (JStr "6500000000000") eq_refl) as (_ & H5 & _).
  rewrite (H5 6500000000000%float (-8)%float 0x1.5798ee2308c3ap-27%float);
    vm_compute; reflexivity.
Defined.

(** C3 as stated fails three times.  An item with a mantissa and no
    exponent returns the mantissa as the price instead of raising.  A
    mantissa of 2^53 + 1 with exponent 0 returns 9007199254740992.0,
    which is not mantissa times ten to the exponent.  And an exponent of
    400 raises [OverflowError], neither a price nor one of the feed's
    errors. *)
Lemma missing_exponent_returns :
  (mantissa_of Demo.btc_quote_no_expo = Some (JStr "65000") /\
   item_price Demo.btc_quote_no_expo ≫= expo = None /\
   fetch_pyth_price (Demo.lab_platform (Return [Demo.btc_quote_no_expo])) "BTCUSD"
     Demo.empty_world = (Return 65000%float, btc_request Demo.empty_world)) /\
  (fetch_pyth_price (Demo.lab_platform (Return [Demo.odd_quote])) "BTCUSD" Demo.empty_world
     = (Return 9007199254740992%float, btc_request Demo.empty_world) /\
   ~ (exact 9007199254740992 == 9007199254740993 * 10 ^ 0)%Q) /\
  fetch_pyth_price (Demo.lab_platform (Return [Demo.far_quote])) "BTCUSD" Demo.empty_world
    = (Raise (OverflowError "(34, 'Numerical result out of range')"),
       btc_request Demo.empty_world).
Proof.
  split; [|split].
  - split; [reflexivity|]. split; [reflexivity|]. vm_compute. reflexivity.
  - split; [vm_compute; reflexivity|]. vm_compute. discriminate.
  - vm_compute. reflexivity.
Qed.

End Oracle64.

(** ** Veto, ranking and the scan on doubles *)

Module Rank64.
Import Binary64 FloatFacts.
Local Open Scope float_scope.

(** *** The veto *)

Lemma is_nan_threshold : is_nan threshold = false.
Proof. reflexivity. Qed.

(** The veto holds upwards in the ranking key. *)
Lemma veto_upwards (a b : Signal) :
  (p b * e b <=? p a * e a) = true -> risk_manager b = true -> risk_manager a = true.
Proof. unfold risk_manager. intros Hle Hb. now apply leb_trans with (p b * e b). Qed.

(** C6, as the code has it.  [risk_manager] accepts a signal exactly
    when the double [p * e], the product rounded to nearest, compares
    [>=] with the double nearest 0.6; it rejects exactly when that
    product is smaller or is a NaN; a product equal to the threshold is
    accepted; and a signal whose product is no smaller than that of an
    accepted one is accepted. *)
Theorem risk_manager_iff (s : Signal) :
  let se := p s * e s in
  (risk_manager s = true <-> (threshold <=? se) = true) /\
  (risk_manager s = false <-> (se <? threshold) = true \/ is_nan se = true) /\
  ((se =? threshold) = true -> risk_manager s = true) /\
  (forall s', (se <=? p s' * e s') = true -> risk_manager s = true ->
              risk_manager s' = true).
Proof.
  cbv zeta. unfold risk_manager. cbv zeta.
  split; [reflexivity|]. split; [|split].
  - rewrite leb_false, is_nan_threshold. split; [|tauto].
    intros [H | [H | H]]; [now left | discriminate | now right].
  - rewrite eqb_leb. intros H. now apply andb_true_iff in H as [_ H].
  - intros s' Hle H. now apply leb_trans with (p s * e s).
Qed.

(** 0.7999999999999999, the double below 0.8. *)
Definition below_0_8 : float := 0x1.9999999999999p-1.

Definition rounded_up : Signal := {| p := 0.75; e := below_0_8; r := 0.5; v := 0.5 |}.

(** C6 as stated, on exact products, fails: [p = 0.75] and
    [e = 0.7999999999999999] have an exact product below the threshold
    (and below 0.6), the double product rounds up to the threshold, and
    the signal is accepted. *)
Lemma risk_manager_rounds_up :
  risk_manager rounded_up = true /\
  (p rounded_up * e rounded_up =? threshold) = true /\
  (exact (p rounded_up) * exact (e rounded_up) < exact threshold)%Q /\
  (exact threshold < 6 # 10)%Q.
Proof. repeat split. Qed.

(** *** Sorting by a double key *)

Section Sorting.
Context {A : Type} (key : A -> float).

(** The key of [a] is a number. *)
Definition num (a : A) : Prop := is_nan (key a) = false.

(** [a] may stand before [b] in a descending list. *)
Definition desc (a b : A) : Prop := (key b <=? key a) = true.

Lemma insert_desc_perm (x : A) (l : list A) : insert_desc key x l ≡ₚ x :: l.
Proof.
  induction l as [|y l IH]; simpl.
  - reflexivity.
  - destruct (key x <? key y); [|reflexivity].
    rewrite IH. apply perm_swap.
Qed.

Lemma sorted_desc_perm (l : list A) : sorted_desc key l ≡ₚ l.
Proof.
  induction l as [|x l IH]; simpl.
  - reflexivity.
  - fold (sorted_desc key l). now rewrite insert_desc_perm, IH.
Qed.

Lemma sorted_desc_num (l : list A) : Forall num l -> Forall num (sorted_desc key l).
Proof. intros H. now rewrite sorted_desc_perm. Qed.

Lemma insert_desc_sorted (x : A) (l : list A) :
  num x -> Forall num l ->
  StronglySorted desc l -> StronglySorted desc (insert_desc key x l).
Proof.
  intros Hx Hl Hs. induction Hs as [|y l Hs IH Hy]; simpl.
  - repeat constructor.
  - apply Forall_cons in Hl as [Hny Hl].
    destruct (key x <? key y) eqn:E.
    + constructor; [now apply IH|].
      rewrite insert_desc_perm. constructor; [|exact Hy].
      unfold desc. now apply ltb_leb.
    + assert (Hle : (key y <=? key x) = true).
      { rewrite (ltb_negb_leb _ _ Hx Hny) in E. now destruct (key y <=? key x). }
      constructor; [now constructor|].
      constructor; [exact Hle|].
      eapply Forall_impl; [exact Hy|].
      intros z Hz. unfold desc in *. now apply leb_trans with (key y).
Qed.

Lemma sorted_desc_sorted (l : list A) :
  Forall num l -> StronglySorted desc (sorted_desc key l).
Proof.
  induction 1 as [|x l Hx Hl IH]; simpl.
  - constructor.
  - apply insert_desc_sorted; [exact Hx | now apply sorted_desc_num | exact IH].
Qed.

(** Nothing in [l] beats [x]: it goes to the front. *)
Lemma insert_desc_top (x : A) (l : list A) :
  Forall (fun y => (key y <=? key x) = true) l -> insert_desc key x l = x :: l.
Proof.
  destruct l as [|y l]; simpl; [reflexivity|].
  intros H. apply Forall_cons in H as [Hy _].
  now rewrite (leb_ltb_false _ _ Hy).
Qed.

(** Stability of the sort: it commutes with every filter. *)
Lemma insert_desc_filter (P : A -> Prop) `{!forall a, Decision (P a)} (x : A) (l : list A) :
  num x -> Forall num l -> StronglySorted desc l ->
  filter P (insert_desc key x l)
    = if decide (P x) then insert_desc key x (filter P l) else filter P l.
Proof.
  intros Hx Hl Hs. induction Hs as [|y l Hs IH Hy]; simpl.
  - rewrite filter_cons, filter_nil. destruct (decide (P x)); reflexivity.
  - apply Forall_cons in Hl as [Hny Hl].
    destruct (key x <? key y) eqn:E.
    + rewrite (filter_cons _ y), (filter_cons _ y), (IH Hl).
      destruct (decide (P y)) as [Hpy | Hpy]; [|reflexivity].
      destruct (decide (P x)) as [Hpx | Hpx]; [|reflexivity].
      simpl. now rewrite E.
    + assert (Hle : (key y <=? key x) = true).
      { rewrite (ltb_negb_leb _ _ Hx Hny) in E. now destruct (key y <=? key x). }
      rewrite (filter_cons _ x). destruct (decide (P x)) as [Hpx | Hpx]; [|reflexivity].
      symmetry. apply insert_desc_top.
      apply Forall_forall. intros z Hz.
      apply list_elem_of_filter in Hz as [_ Hz].
      apply elem_of_cons in Hz as [-> | Hz]; [exact Hle|].
      rewrite Forall_forall in Hy. specialize (Hy z Hz). unfold desc in Hy.
      now apply leb_trans with (key y).
Qed.

Lemma sorted_desc_filter (P : A -> Prop) `{!forall a, Decision (P a)} (l : list A) :
  Forall num l -> filter P (sorted_desc key l) = sorted_desc key (filter P l).
Proof.
  induction 1 as [|x l Hx Hl IH]; simpl.
  - reflexivity.
  - fold (sorted_desc key l).
    rewrite insert_desc_filter;
      [| exact Hx | now apply sorted_desc_num | now apply sorted_desc_sorted].
    rewrite filter_cons, IH. destruct (decide (P x)); reflexivity.
Qed.

(** A list of equal keys is left as it is. *)
Lemma sorted_desc_ties (q : float) (l : list A) :
  Forall (fun a => (key a =? q) = true) l -> sorted_desc key l = l.
Proof.
  induction 1 as [|x l Hx Hl IH]; simpl.
  - reflexivity.
  - fold (sorted_desc key l). rewrite IH. apply insert_desc_top.
    eapply Forall_impl; [exact Hl|].
    intros y Hy. simpl in Hy.
    rewrite eqb_leb in Hx, Hy.
    apply andb_true_iff in Hx as [_ Hx]. apply andb_true_iff in Hy as [Hy _].
    now apply leb_trans with q.
Qed.

Lemma sorted_desc_stable (q : float) (l : list A) :
  Forall num l ->
  filter (fun a => (key a =? q) = true) (sorted_desc key l)
  = filter (fun a => (key a =? q) = true) l.
Proof.
  intros H. rewrite sorted_desc_filter by exact H. apply (sorted_desc_ties q).
  apply Forall_forall. intros a Ha. now apply list_elem_of_filter in Ha as [Ha _].
Qed.

Lemma filter_none (P : A -> Prop) `{!forall a, Decision (P a)} (l : list A) :
  Forall (fun z => ~ P z) l -> filter P l = [].
Proof.
  induction 1 as [|z l Hz Hl IH]; [reflexivity|].
  now rewrite filter_cons_False.
Qed.

(** On a descending list a predicate that holds upwards commutes with
    taking a prefix. *)
Lemma filter_take_sorted (P : A -> Prop) `{!forall a, Decision (P a)} (l : list A) (n : nat) :
  (forall a b, desc a b -> P b -> P a) ->
  StronglySorted desc l ->
  filter P (take n l) = take n (filter P l).
Proof.
  intros Hup Hs. revert n. induction Hs as [|x l Hs IH Hx]; intros n.
  - rewrite filter_nil, !take_nil. apply filter_nil.
  - destruct n as [|n]; [reflexivity|].
    simpl take. rewrite !filter_cons.
    destruct (decide (P x)) as [Hpx | Hpx].
    + simpl. now rewrite IH.
    + assert (Hnone : forall l', l' ⊆ l -> filter P l' = []).
      { intros l' Hsub. apply filter_none. apply Forall_forall. intros z Hz Hpz.
        apply Hpx. apply (Hup x z); [|exact Hpz].
        rewrite Forall_forall in Hx. apply Hx. now apply Hsub. }
      rewrite (Hnone l) by reflexivity.
      rewrite (Hnone (take n l)); [now rewrite take_nil|].
      intros z Hz. eapply subseteq_take, Hz.
Qed.

Lemma sorted_head_max (x : A) (l : list A) :
  num x -> StronglySorted desc (x :: l) ->
  forall y, y ∈ x :: l -> (key y <=? key x) = true.
Proof.
  intros Hn Hs y Hy. apply StronglySorted_inv in Hs as [_ Hx].
  apply elem_of_cons in Hy as [-> | Hy]; [now apply leb_refl|].
  rewrite Forall_forall in Hx. now apply Hx.
Qed.

Lemma sorted_take (l : list A) (n : nat) :
  StronglySorted desc l -> StronglySorted desc (take n l).
Proof.
  intros Hs. revert n. induction Hs as [|x l Hs IH Hx]; intros [|n]; simpl; try constructor.
  - apply IH.
  - now apply Forall_take.
Qed.

(** What comes after a prefix of a descending list exceeds nothing in it. *)
Lemma sorted_take_drop (l : list A) (n : nat) :
  StronglySorted desc l ->
  Forall (fun b => Forall (fun a => (key b <=? key a) = true) (take n l)) (drop n l).
Proof.
  intros Hs. revert n. induction Hs as [|x l Hs IH Hx]; intros [|n]; simpl.
  - constructor.
  - constructor.
  - apply Forall_forall. intros b _. constructor.
  - specialize (IH n). rewrite Forall_forall in IH, Hx.
    apply Forall_forall. intros b Hb. constructor; [|now apply IH].
    apply Hx. eapply subseteq_drop, Hb.
Qed.

(** Descending order and stability leave no choice: two lists of number
    keys that are both descending and hold the items of every one key in
    the same order are the same list. *)
Lemma stable_sort_unique (l1 l2 : list A) :
  Forall num l1 -> Forall num l2 ->
  StronglySorted desc l1 -> StronglySorted desc l2 ->
  (forall q, filter (fun a => (key a =? q) = true) l1
             = filter (fun a => (key a =? q) = true) l2) ->
  l1 = l2.
Proof.
  intros Hn1 Hn2 Hs1. revert l2 Hn2.
  induction Hs1 as [|x l1 Hs1 IH Hx]; intros l2 Hn2 Hs2 H.
  - destruct l2 as [|y l2]; [reflexivity|].
    apply Forall_cons in Hn2 as [Hy _].
    specialize (H (key y)).
    rewrite filter_nil, filter_cons_True in H by now apply eqb_num_refl.
    discriminate.
  - apply Forall_cons in Hn1 as [Hnx Hn1].
    destruct l2 as [|y l2].
    { specialize (H (key x)).
      rewrite filter_nil, filter_cons_True in H by now apply eqb_num_refl.
      discriminate. }
    apply Forall_cons in Hn2 as [Hny Hn2].
    assert (Hxy : (key x =? key y) = true).
    { rewrite eqb_leb. apply andb_true_iff. split.
      - apply (sorted_head_max y l2 Hny Hs2).
        assert (Hin : x ∈ filter (fun a => (key a =? key x) = true) (y :: l2)).
        { rewrite <- (H (key x)).
          rewrite filter_cons_True by now apply eqb_num_refl. left. }
        now apply list_elem_of_filter in Hin as [_ Hin].
      - apply (sorted_head_max x l1 Hnx (SSorted_cons x Hs1 Hx)).
        assert (Hin : y ∈ filter (fun a => (key a =? key y) = true) (x :: l1)).
        { rewrite (H (key y)).
          rewrite filter_cons_True by now apply eqb_num_refl. left. }
        now apply list_elem_of_filter in Hin as [_ Hin]. }
    assert (Hq : forall q,
               ((key x =? q) = true -> x = y) /\
               filter (fun a => (key a =? q) = true) l1
               = filter (fun a => (key a =? q) = true) l2).
    { intros q. specialize (H q). pose proof (eqb_class _ _ q Hxy) as Hc.
      destruct (key x =? q) eqn:Hxq.
      - rewrite !filter_cons_True in H by congruence.
        injection H as -> H. now split.
      - rewrite !filter_cons_False in H by congruence.
        now split. }
    apply StronglySorted_inv in Hs2 as [Hs2 _].
    f_equal.
    + apply (Hq (key x)). now apply eqb_num_refl.
    + apply IH; [exact Hn1 | exact Hn2 | exact Hs2|]. intros q. apply Hq.
Qed.

(** Hence [sorted_desc] is the result of every stable descending sort,
    whatever algorithm it runs. *)
Lemma sorted_desc_unique (l l' : list A) :
  Forall num l -> Forall num l' ->
  StronglySorted desc l' ->
  (forall q, filter (fun a => (key a =? q) = true) l'
             = filter (fun a => (key a =? q) = true) l) ->
  l' = sorted_desc key l.
Proof.
  intros Hn Hn' Hs H.
  apply stable_sort_unique;
    [exact Hn' | now apply sorted_desc_num | exact Hs | now apply sorted_desc_sorted |].
  intros q. now rewrite sorted_desc_stable.
Qed.

End Sorting.

(** *** [top_signals] *)

Abbreviation num_keys scores := (Forall (fun kv => is_nan (pe kv) = false) scores).

Lemma top_signals_take (scores : list (string * Signal)) (k : Z) :
  (0 <= k)%Z -> top_signals scores k = take (Z.to_nat k) (sorted_desc pe scores).
Proof.
  intros H. unfold top_signals, Coordinator.slice_to. cbv zeta.
  destruct (Z.ltb_spec k 0); [lia | reflexivity].
Qed.

(** C7, as the code has it.  For [k >= 0] and candidates whose
    products are numbers, [top_signals] returns a list that is descending
    in the double [p * e], of length [min k (number of candidates)],
    hence at most [k]; together with the candidates left out it is the
    input, and none left out beats one returned; the candidates of any
    one rounded product appear in their input order; and [k = 0] gives
    the empty list. *)
Theorem top_signals_ranked (scores : list (string * Signal)) (k : Z) :
  (0 <= k)%Z -> num_keys scores ->
  let out := top_signals scores k in
  StronglySorted (desc pe) out /\
  length out = Nat.min (Z.to_nat k) (length scores) /\
  (length out <= Z.to_nat k)%nat /\
  (exists rest,
     (out ++ rest)%list ≡ₚ scores /\
     Forall (fun b => Forall (fun a => (pe b <=? pe a) = true) out) rest) /\
  (forall q,
     filter (fun kv => (pe kv =? q) = true) out
       `prefix_of` filter (fun kv => (pe kv =? q) = true) scores) /\
  (k = 0%Z -> out = []).
Proof.
  intros Hk Hnum. cbv zeta. rewrite (top_signals_take _ _ Hk).
  pose proof (sorted_desc_sorted pe scores Hnum) as Hs.
  pose proof (sorted_desc_perm pe scores) as Hp.
  assert (Hlen : length (take (Z.to_nat k) (sorted_desc pe scores))
                 = Nat.min (Z.to_nat k) (length scores)).
  { now rewrite length_take, Hp. }
  split; [|split; [|split; [|split; [|split]]]].
  - now apply sorted_take.
  - exact Hlen.
  - rewrite Hlen. apply Nat.le_min_l.
  - exists (drop (Z.to_nat k) (sorted_desc pe scores)). split.
    + now rewrite take_drop.
    + now apply sorted_take_drop.
  - intros q. rewrite <- (sorted_desc_stable pe q scores Hnum).
    rewrite <- (take_drop (Z.to_nat k) (sorted_desc pe scores)) at 2.
    rewrite filter_app. now apply prefix_app_r.
  - intros ->. reflexivity.
Qed.

Definition signal (p e : float) : Signal := {| p := p; e := e; r := 0.5; v := 0.5 |}.

(** The spec's example.  A and B score 0.5, C scores 0.9 (the double
    nearest to it). *)
Definition nine_tenths : float := 0x1.ccccccccccccdp-1.
Definition cand_A : string * Signal := ("A", signal 0.5 1).
Definition cand_B : string * Signal := ("B", signal 1 0.5).
Definition cand_C : string * Signal := ("C", signal nine_tenths 1).

Lemma top_signals_example :
  pe cand_A = 0.5 /\ pe cand_B = 0.5 /\ pe cand_C = nine_tenths /\
  top_signals [cand_A; cand_B; cand_C] 2 = [cand_C; cand_A] /\
  top_signals [cand_A; cand_B; cand_C] 0 = [] /\
  length (top_signals [cand_A; cand_B; cand_C] 2) = 2%nat /\
  StronglySorted (desc pe) (top_signals [cand_A; cand_B; cand_C] 2).
Proof.
  split; [reflexivity|]. split; [reflexivity|]. split; [reflexivity|].
  split; [reflexivity|]. split; [reflexivity|].
  destruct (top_signals_ranked [cand_A; cand_B; cand_C] 2) as (Hs & Hl & _);
    [lia | repeat constructor |].
  split; [exact Hl | exact Hs].
Defined.

(** Two candidates whose exact products differ by 2^-54 and round to
    the same double: [close_A] has [p * e = 1 - 2^-26], [close_B] has
    [(1 - 2^-27)^2]. *)
Definition close_A : string * Signal := ("A", signal 0x1.ffffff8p-1 1).
Definition close_B : string * Signal := ("B", signal 0x1.ffffffcp-1 0x1.ffffffcp-1).

Definition exact_pe (kv : string * Signal) : Q := (exact (p kv.2) * exact (e kv.2))%Q.

(** C7 as stated, on exact products, fails: the two products round to
    the same double, the candidates stay in input order, and the list
    returned is ascending in the exact product; with [k = 1] the
    candidate returned is not the one with the largest exact product. *)
Lemma top_signals_rounded_ties :
  (exact_pe close_A < exact_pe close_B)%Q /\
  pe close_A = pe close_B /\
  top_signals [close_A; close_B] 2 = [close_A; close_B] /\
  top_signals [close_A; close_B] 1 = [close_A].
Proof. repeat split. Qed.

(** *** The scan pipeline *)

Abbreviation veto := (fun kv : string * Signal => risk_manager kv.2 = true).

(** Ranking, truncating and then vetoing is vetoing, ranking and then
    truncating. *)
Lemma rank_and_risk_spec (scores : list (string * Signal)) (k : Z) :
  (0 <= k)%Z -> num_keys scores -> rank_and_risk scores k = spec_selection scores k.
Proof.
  intros Hk Hnum. unfold rank_and_risk, spec_selection.
  rewrite !(top_signals_take _ _ Hk).
  rewrite (filter_take_sorted pe).
  - now rewrite sorted_desc_filter.
  - intros a b Hab. now apply veto_upwards.
  - now apply sorted_desc_sorted.
Qed.

(** The job the tenant row reached at time [ts] gets for a pick. *)
Definition job_for (best : string * Signal) (ts : string) (row : Coordinator.TenantRef)
    : Payload :=
  {| payload_tenant_id := Coordinator.tenant_id row;
     payload_email := Coordinator.email row;
     payload_symbol := best.1;
     payload_p := p best.2;
     payload_e := e best.2;
     payload_r := r best.2;
     payload_v := v best.2;
     payload_ts := ts |}.

(** C2, as the code has it.  For [k >= 0] and candidates whose
    products are numbers, the picks of the tick are the spec's selection:
    the first [k], in descending order of the double [p * e] and stable,
    of exactly the candidates that pass the veto on that double.  With a
    non-empty selection every tenant row gets one job and each job
    carries the first pick, a veto-surviving candidate whose rounded
    product no surviving candidate exceeds; with an empty one no job is
    made. *)
Theorem scan_selection (scores : list (string * Signal)) (k : Z)
    (rows : list Coordinator.TenantRef) (clock : nat -> string) :
  (0 <= k)%Z -> num_keys scores ->
  let survivors := filter veto scores in
  let picks := rank_and_risk scores k in
  picks = spec_selection scores k /\
  picks = take (Z.to_nat k) (sorted_desc pe survivors) /\
  StronglySorted (desc pe) picks /\
  length picks = Nat.min (Z.to_nat k) (length survivors) /\
  (forall kv, kv ∈ picks -> kv ∈ scores /\ risk_manager kv.2 = true) /\
  (picks = [] -> enqueue_jobs rows clock picks = []) /\
  (forall best rest, picks = best :: rest ->
     best ∈ scores /\ risk_manager best.2 = true /\
     (forall kv, kv ∈ scores -> risk_manager kv.2 = true -> (pe kv <=? pe best) = true) /\
     enqueue_jobs rows clock picks = imap (fun i => job_for best (clock i)) rows /\
     length (enqueue_jobs rows clock picks) = length rows).
Proof.
  intros Hk Hnum. cbv zeta.
  assert (Hnum' : num_keys (filter veto scores)).
  { apply Forall_forall. intros kv Hkv. apply list_elem_of_filter in Hkv as [_ Hkv].
    rewrite Forall_forall in Hnum. now apply Hnum. }
  assert (E : rank_and_risk scores k = take (Z.to_nat k) (sorted_desc pe (filter veto scores))).
  { rewrite (rank_and_risk_spec _ _ Hk Hnum). unfold spec_selection.
    now rewrite (top_signals_take _ _ Hk). }
  pose proof (sorted_desc_sorted pe (filter veto scores) Hnum') as Hs.
  pose proof (sorted_desc_perm pe (filter veto scores)) as Hp.
  assert (Hin : forall kv, kv ∈ rank_and_risk scores k -> kv ∈ scores /\ veto kv).
  { intros kv Hkv. rewrite E in Hkv. apply subseteq_take in Hkv.
    rewrite Hp in Hkv. now apply list_elem_of_filter in Hkv as [? ?]. }
  split; [now apply rank_and_risk_spec|]. split; [exact E|].
  split; [rewrite E; now apply sorted_take|].
  split; [now rewrite E, length_take, Hp|].
  split; [exact Hin|].
  split; [now intros ->|].
  intros best rest Hb.
  assert (Hbest : best ∈ rank_and_risk scores k) by (rewrite Hb; left).
  destruct (Hin _ Hbest) as [Hb1 Hb2].
  split; [exact Hb1|]. split; [exact Hb2|]. split.
  - intros kv Hkv Hv.
    assert (Hkv' : kv ∈ sorted_desc pe (filter veto scores)).
    { rewrite Hp. apply list_elem_of_filter. now split. }
    rewrite E in Hb.
    destruct (sorted_desc pe (filter veto scores)) as [|x l] eqn:El.
    { now apply elem_of_nil in Hkv'. }
    destruct (Z.to_nat k) as [|n]; [discriminate|].
    simpl in Hb. injection Hb as -> _.
    apply (sorted_head_max pe best l); [|exact Hs | exact Hkv'].
    rewrite Forall_forall in Hnum. now apply Hnum.
  - rewrite Hb. destruct best as [best_sym best]. simpl.
    split; [reflexivity | now rewrite length_imap].
Qed.

(** Candidates A, C, X, Y and Z score 0.5, 0.9, 0.5625, 0.625 and
    0.6875.  With [k = 3] the picks among all five are C, Z and Y; among
    A, C and X the top three hold two vetoed candidates, only C is
    picked, and both tenants get the job for C. *)
Definition cand_X : string * Signal := ("X", signal 0.5625 1).
Definition cand_Y : string * Signal := ("Y", signal 0.625 1).
Definition cand_Z : string * Signal := ("Z", signal 0.6875 1).
Definition tenant_1 : Coordinator.TenantRef :=
  {| Coordinator.tenant_id := "t1"; Coordinator.email := "demo1@cerbero.ai" |}.
Definition tenant_2 : Coordinator.TenantRef :=
  {| Coordinator.tenant_id := "t2"; Coordinator.email := "demo2@cerbero.ai" |}.
Definition two_tenants : list Coordinator.TenantRef := [tenant_1; tenant_2].
Definition two_times (i : nat) : string :=
  match i with
  | O => "2025-01-01T00:00:00+00:00"
  | _ => "2025-01-01T00:00:01+00:00"
  end.

Lemma scan_selection_example :
  rank_and_risk [cand_A; cand_C; cand_X; cand_Y; cand_Z] 3 = [cand_C; cand_Z; cand_Y] /\
  rank_and_risk [cand_A; cand_C; cand_X] 3 = [cand_C] /\
  rank_and_risk [cand_A; cand_C; cand_X] 3 = spec_selection [cand_A; cand_C; cand_X] 3 /\
  enqueue_jobs two_tenants two_times (rank_and_risk [cand_A; cand_C; cand_X] 3)
    = [job_for cand_C "2025-01-01T00:00:00+00:00" tenant_1;
       job_for cand_C "2025-01-01T00:00:01+00:00" tenant_2].
Proof.
  split; [reflexivity|]. split; [reflexivity|].
  destruct (scan_selection [cand_A; cand_C; cand_X] 3 two_tenants two_times)
    as (Hspec & _ & _ & _ & _ & _ & Hbest); [lia | repeat constructor |].
  split; [exact Hspec|].
  destruct (Hbest cand_C [] eq_refl) as (_ & _ & _ & Hjobs & _).
  exact Hjobs.
Defined.

(** C2 as stated, on exact products, fails.  A candidate whose exact
    product is below the threshold is selected, because the rounded
    product reaches it; and of two candidates whose products round to
    the same double the jobs carry the first in input order, not the
    one whose exact product is larger. *)
Lemma scan_selects_by_rounded_product :
  (rank_and_risk [("T", rounded_up)] 3 = [("T", rounded_up)] /\
   (exact_pe ("T", rounded_up) < exact threshold)%Q /\ (exact threshold < 6 # 10)%Q) /\
  (rank_and_risk [close_A; close_B] 3 = [close_A; close_B] /\
   (exact_pe close_A < exact_pe close_B)%Q /\
   enqueue_jobs two_tenants two_times (rank_and_risk [close_A; close_B] 3)
     = [job_for close_A "2025-01-01T00:00:00+00:00" tenant_1;
        job_for close_A "2025-01-01T00:00:01+00:00" tenant_2]).
Proof. repeat split. Qed.

(** *** A negative [k] *)

(** A negative [k] does not give an empty result: on candidates whose
    products are numbers [top_signals] then drops the [-k] lowest-ranked
    candidates and returns all the others in ranking order, and only
    [k <= -len(scores)] gives the empty list. *)
Theorem top_signals_negative (scores : list (string * Signal)) (k : Z) :
  (k < 0)%Z -> num_keys scores ->
  let out := top_signals scores k in
  (out ++ drop (length scores - Z.to_nat (- k)) (sorted_desc pe scores))%list
    = sorted_desc pe scores /\
  length out = (length scores - Z.to_nat (- k))%nat /\
  StronglySorted (desc pe) out /\
  (out = [] <-> (k <= - Z.of_nat (length scores))%Z).
Proof.
  intros Hk Hnum. cbv zeta.
  pose proof (sorted_desc_perm pe scores) as Hp.
  apply Permutation_length in Hp.
  assert (E : top_signals scores k
              = take (length scores - Z.to_nat (- k)) (sorted_desc pe scores)).
  { unfold top_signals, Coordinator.slice_to. cbv zeta.
    destruct (Z.ltb_spec k 0); [|lia]. now rewrite Hp. }
  assert (L : length (top_signals scores k) = (length scores - Z.to_nat (- k))%nat).
  { rewrite E, length_take, Hp. lia. }
  split; [|split; [|split]].
  - rewrite E. apply take_drop.
  - exact L.
  - rewrite E. now apply sorted_take, sorted_desc_sorted.
  - split.
    + intros H. rewrite H in L. simpl in L. lia.
    + intros H. apply length_zero_iff_nil. rewrite L. lia.
Qed.

(** With [k = -1] the three candidates of the example lose the last of
    the ranking. *)
Lemma top_signals_negative_example :
  (-1 < 0)%Z /\
  top_signals [cand_A; cand_B; cand_C] (-1) = [cand_C; cand_A] /\
  length (top_signals [cand_A; cand_B; cand_C] (-1)) = 2%nat.
Proof.
  split; [lia|]. split; [reflexivity|].
  refine (proj1 (proj2 (top_signals_negative [cand_A; cand_B; cand_C] (-1) _ _)));
    [lia | repeat constructor].
Defined.

End Rank64.

(** ** The database helpers *)

Module TenantFacts.
Import Executor MonadFacts.

(** The WHERE clauses of [ensure_test_user]. *)
Definition tenant_matches (user_id : string) (t : TenantRow) : bool :=
  String.eqb (tenant_email t) user_id.

Definition contract_matches (tenant_uuid test_wallet : string) (c : ContractRow) : bool :=
  String.eqb (contract_tenant_id c) tenant_uuid
  && String.eqb (contract_arbitrum_address c) test_wallet.

(** The rows it inserts, with the uuid drawn in world [w]. *)
Definition new_tenant (env : Env) (user_id : string) (w : world) : TenantRow :=
  {| tenant_id := uuid_str (uuid4_nth env (uuid_count w)); tenant_email := user_id;
     tenant_stripe_customer_id := None; tenant_created_at := now env |}.

Definition new_contract (env : Env) (tenant_uuid test_wallet : string) (w : world)
    : ContractRow :=
  {| contract_id := uuid_str (uuid4_nth env (uuid_count w));
     contract_tenant_id := tenant_uuid; contract_arbitrum_address := test_wallet;
     contract_status := "active"; contract_deposit_cap_eur := 100000;
     contract_created_at := now env |}.

Definition multiple_rows : exn :=
  MultipleResultsFound "Multiple rows were found when one or none was required".

(** The second half of the transaction, from the world [w1] in which the
    tenant is known; [w0] is the world the transaction started in. *)
Definition contract_half (env : Env) (tenant_uuid test_wallet : string) (w0 w1 : world)
    : py unit * world :=
  match List.filter (contract_matches tenant_uuid test_wallet) (contracts w1) with
  | [] => (Return tt, add_contract (new_contract env tenant_uuid test_wallet w1) (bump_uuid w1))
  | [_] => (Return tt, w1)
  | _ =>
      (Raise multiple_rows,
       {| tenants := tenants w0; contracts := contracts w0; signals := signals w0;
          http_requests := http_requests w1; log := log w1; uuid_count := uuid_count w1 |})
  end.

(** [ensure_test_user] by cases on what the two SELECTs match. *)
Lemma ensure_test_user_eq (env : Env) (user_id test_wallet : string) (w : world) :
  ensure_test_user env user_id test_wallet w =
    match List.filter (tenant_matches user_id) (tenants w) with
    | [] =>
        contract_half env (tenant_id (new_tenant env user_id w)) test_wallet w
          (add_tenant (new_tenant env user_id w) (bump_uuid w))
    | [t] => contract_half env (tenant_id t) test_wallet w w
    | _ => (Raise multiple_rows, w)
    end.
Proof.
  unfold ensure_test_user, begin, contract_half, mbind, M_bind, get_world, lift_py,
    uuid4, insert_tenant, insert_contract, mret, M_ret.
  fold (tenant_matches user_id).
  destruct (List.filter (tenant_matches user_id) (tenants w)) as [|t [|t' ts]]; cbn.
  - fold (contract_matches (uuid_str (uuid4_nth env (uuid_count w))) test_wallet).
    destruct (List.filter _ (contracts w)) as [|c [|c' cs]]; reflexivity.
  - fold (contract_matches (tenant_id t) test_wallet).
    destruct (List.filter _ (contracts w)) as [|c [|c' cs]]; reflexivity.
  - now destruct w.
Qed.

Lemma filter_snoc {A : Type} (f : A -> bool) (l : list A) (x : A) :
  List.filter f (l ++ [x]) = (List.filter f l ++ if f x then [x] else [])%list.
Proof. rewrite List.filter_app. simpl. now destruct (f x). Qed.

Lemma new_contract_matches (env : Env) (tenant_uuid test_wallet : string) (w : world) :
  contract_matches tenant_uuid test_wallet (new_contract env tenant_uuid test_wallet w) = true.
Proof. unfold contract_matches. simpl. now rewrite !String.eqb_refl. Qed.

Lemma new_tenant_matches (env : Env) (user_id : string) (w : world) :
  tenant_matches user_id (new_tenant env user_id w) = true.
Proof. unfold tenant_matches. simpl. apply String.eqb_refl. Qed.

Lemma contract_half_returns (env : Env) (tenant_uuid test_wallet : string)
    (w0 w1 w' : world) (u : unit) :
  contract_half env tenant_uuid test_wallet w0 w1 = (Return u, w') ->
  exists cs c,
    contracts w' = (contracts w1 ++ cs)%list /\
    (cs = [] \/ cs = [new_contract env tenant_uuid test_wallet w1]) /\
    List.filter (contract_matches tenant_uuid test_wallet) (contracts w') = [c] /\
    tenants w' = tenants w1 /\ signals w' = signals w1 /\
    log w' = log w1 /\ http_requests w' = http_requests w1 /\
    uuid_count w' = (uuid_count w1 + length cs)%nat.
Proof.
  unfold contract_half.
  destruct (List.filter _ (contracts w1)) as [|c [|c' cs]] eqn:F;
    intros H; inversion H; subst w'; clear H.
  - exists [new_contract env tenant_uuid test_wallet w1],
           (new_contract env tenant_uuid test_wallet w1).
    change (contracts (add_contract (new_contract env tenant_uuid test_wallet w1)
                                    (bump_uuid w1)))
      with (contracts w1 ++ [new_contract env tenant_uuid test_wallet w1])%list.
    rewrite filter_snoc, F, new_contract_matches.
    repeat split; try reflexivity; [now right | simpl; lia].
  - exists [], c. rewrite app_nil_r, F. simpl.
    repeat split; try reflexivity; [now left | lia].
Qed.

Lemma ensure_test_user_returned (env : Env) (user_id test_wallet : string) (w w' : world) :
  ensure_test_user env user_id test_wallet w = (Return tt, w') ->
  exists t c ts cs w1,
    List.filter (tenant_matches user_id) (tenants w') = [t] /\
    List.filter (contract_matches (tenant_id t) test_wallet) (contracts w') = [c] /\
    tenants w' = (tenants w ++ ts)%list /\ contracts w' = (contracts w ++ cs)%list /\
    (ts = [] \/ ts = [new_tenant env user_id w]) /\
    (cs = [] \/ cs = [new_contract env (tenant_id t) test_wallet w1]) /\
    uuid_count w1 = (uuid_count w + length ts)%nat /\
    uuid_count w' = (uuid_count w + length ts + length cs)%nat /\
    signals w' = signals w /\ log w' = log w /\ http_requests w' = http_requests w.
Proof.
  rewrite ensure_test_user_eq.
  destruct (List.filter (tenant_matches user_id) (tenants w)) as [|t [|t' ts]] eqn:F;
    [| |discriminate]; intros H;
    apply contract_half_returns in H
      as (cs & c & Hc & Hcs & Hf & Ht & Hs & Hl & Hr & Hu).
  - change (tenants (add_tenant (new_tenant env user_id w) (bump_uuid w)))
      with (tenants w ++ [new_tenant env user_id w])%list in Ht.
    simpl in Hs, Hl, Hr, Hu, Hc.
    exists (new_tenant env user_id w), c, [new_tenant env user_id w], cs,
           (add_tenant (new_tenant env user_id w) (bump_uuid w)).
    split; [now rewrite Ht, filter_snoc, F, new_tenant_matches|].
    split; [exact Hf|]. split; [exact Ht|]. split; [exact Hc|].
    split; [now right|]. split; [exact Hcs|].
    split; [simpl; lia|]. split; [simpl; lia|]. now repeat split.
  - exists t, c, [], cs, w.
    split; [now rewrite Ht|].
    split; [exact Hf|]. split; [now rewrite Ht, app_nil_r|]. split; [exact Hc|].
    split; [now left|]. split; [exact Hcs|].
    split; [simpl; lia|]. split; [simpl; lia|]. now repeat split.
Qed.

(** [ensure_test_user], when it returns, leaves exactly one tenant with
    the given email and exactly one contract of that tenant at the given
    wallet.  It only appends: at most one tenant row and one contract
    row, each as the source builds it (an active contract with a cap of
    100000), drawing one uuid per row; signals, log and requests are
    untouched. *)
Theorem ensure_test_user_post (env : Env) (user_id test_wallet : string) (w w' : world) :
  ensure_test_user env user_id test_wallet w = (Return tt, w') ->
  exists t c ts cs w1,
    List.filter (tenant_matches user_id) (tenants w') = [t] /\
    List.filter (contract_matches (tenant_id t) test_wallet) (contracts w') = [c] /\
    tenants w' = (tenants w ++ ts)%list /\ contracts w' = (contracts w ++ cs)%list /\
    (ts = [] \/ ts = [new_tenant env user_id w]) /\
    (cs = [] \/ cs = [new_contract env (tenant_id t) test_wallet w1]) /\
    uuid_count w1 = (uuid_count w + length ts)%nat /\
    uuid_count w' = (uuid_count w + length ts + length cs)%nat /\
    signals w' = signals w /\ log w' = log w /\ http_requests w' = http_requests w.
Proof. apply ensure_test_user_returned. Qed.

(** From an empty database the laboratory user gets one tenant and one
    contract row, for two uuids. *)
Lemma ensure_test_user_post_empty :
  exists w',
    ensure_test_user (Demo.lab_env (Return [])) "TEST_USER_001" "0xaa" Demo.empty_world
      = (Return tt, w') /\
    length (tenants w') = 1%nat /\ length (contracts w') = 1%nat /\
    uuid_count w' = 2%nat.
Proof.
  eexists. split; [vm_compute; reflexivity|].
  edestruct (ensure_test_user_post (Demo.lab_env (Return [])) "TEST_USER_001" "0xaa"
               Demo.empty_world) as (t & c & ts & cs & w1 & _);
    [vm_compute; reflexivity|].
  vm_compute. repeat split.
Defined.

(** [ensure_test_user] is idempotent: run again in the world it left, it
    returns and changes nothing, not even the uuid counter. *)
Theorem ensure_test_user_idempotent (env : Env) (user_id test_wallet : string)
    (w w' : world) :
  ensure_test_user env user_id test_wallet w = (Return tt, w') ->
  ensure_test_user env user_id test_wallet w' = (Return tt, w').
Proof.
  intros H. apply ensure_test_user_returned in H as (t & c & ts & cs & w1 & Ft & Fc & _).
  rewrite ensure_test_user_eq, Ft. unfold contract_half. now rewrite Fc.
Qed.

Lemma ensure_test_user_twice :
  exists w',
    ensure_test_user (Demo.lab_env (Return [])) "TEST_USER_001" "0xaa" Demo.empty_world
      = (Return tt, w') /\
    ensure_test_user (Demo.lab_env (Return [])) "TEST_USER_001" "0xaa" w' = (Return tt, w').
Proof.
  eexists. split; [vm_compute; reflexivity|].
  apply (ensure_test_user_idempotent (Demo.lab_env (Return [])) "TEST_USER_001" "0xaa"
           Demo.empty_world).
  vm_compute. reflexivity.
Defined.

(** *** The schema's uniqueness *)

(** No two tenants share an email (the UNIQUE column of the schema) and
    no two contracts share tenant and wallet. *)
Definition contract_key (c : ContractRow) : string * string :=
  (contract_tenant_id c, contract_arbitrum_address c).

Definition db_unique (w : world) : Prop :=
  NoDup (map tenant_email (tenants w)) /\ NoDup (map contract_key (contracts w)).

Section Keys.
Context {A K : Type} (f : A -> K) (m : A -> bool) (k : K).
Hypothesis m_key : forall x, m x = true <-> f x = k.

Lemma filter_none_key (l : list A) : List.filter m l = [] <-> k ∉ map f l.
Proof.
  induction l as [|x l IH]; simpl.
  - split; [intros _; apply not_elem_of_nil | reflexivity].
  - rewrite not_elem_of_cons, <- IH. destruct (m x) eqn:E.
    + apply m_key in E. split; [discriminate | intros [H _]; congruence].
    + split; [|tauto]. intros H. split; [|exact H].
      intros Hk. symmetry in Hk. apply m_key in Hk. congruence.
Qed.

Lemma filter_unique_key (l : list A) :
  NoDup (map f l) -> (length (List.filter m l) <= 1)%nat.
Proof.
  induction l as [|x l IH]; simpl; intros H; [lia|].
  apply NoDup_cons in H as [Hx Hl]. destruct (m x) eqn:E.
  - apply m_key in E. rewrite E in Hx. apply filter_none_key in Hx. rewrite Hx. simpl. lia.
  - now apply IH.
Qed.

End Keys.

Lemma tenant_matches_key (user_id : string) (t : TenantRow) :
  tenant_matches user_id t = true <-> tenant_email t = user_id.
Proof. apply String.eqb_eq. Qed.

Lemma contract_matches_key (tenant_uuid test_wallet : string) (c : ContractRow) :
  contract_matches tenant_uuid test_wallet c = true
  <-> contract_key c = (tenant_uuid, test_wallet).
Proof.
  unfold contract_matches, contract_key.
  rewrite andb_true_iff, !String.eqb_eq. split; [intros [-> ->]; reflexivity|].
  now intros [= -> ->].
Qed.

Lemma contract_half_unique (env : Env) (tenant_uuid test_wallet : string) (w0 w1 : world) :
  NoDup (map contract_key (contracts w1)) ->
  exists w',
    contract_half env tenant_uuid test_wallet w0 w1 = (Return tt, w') /\
    tenants w' = tenants w1 /\ NoDup (map contract_key (contracts w')).
Proof.
  intros Hnd. unfold contract_half.
  pose proof (filter_unique_key contract_key _ _
                (contract_matches_key tenant_uuid test_wallet) _ Hnd) as Hle.
  destruct (List.filter _ (contracts w1)) as [|c [|c' cs]] eqn:F.
  - eexists. split; [reflexivity|]. split; [reflexivity|].
    simpl. rewrite map_app. simpl. apply NoDup_app. split; [exact Hnd|]. split.
    + intros x Hx. rewrite list_elem_of_singleton. intros ->.
      revert Hx. now apply (filter_none_key contract_key _ _
                              (contract_matches_key tenant_uuid test_wallet)).
    + apply NoDup_singleton.
  - eexists. now split.
  - simpl in Hle. lia.
Qed.

Lemma ensure_test_user_unique (env : Env) (user_id test_wallet : string) (w : world) :
  db_unique w ->
  exists w', ensure_test_user env user_id test_wallet w = (Return tt, w') /\ db_unique w'.
Proof.
  intros [Ht Hc]. rewrite ensure_test_user_eq.
  pose proof (filter_unique_key tenant_email _ _ (tenant_matches_key user_id) _ Ht) as Hle.
  destruct (List.filter (tenant_matches user_id) (tenants w)) as [|t [|t' ts]] eqn:F.
  - destruct (contract_half_unique env (tenant_id (new_tenant env user_id w)) test_wallet w
                (add_tenant (new_tenant env user_id w) (bump_uuid w)) Hc)
      as (w' & -> & Ht' & Hc').
    exists w'. split; [reflexivity|]. split; [|exact Hc'].
    rewrite Ht'. simpl. rewrite map_app. simpl. apply NoDup_app. split; [exact Ht|]. split.
    + intros x Hx. rewrite list_elem_of_singleton. intros ->.
      revert Hx. now apply (filter_none_key tenant_email _ _ (tenant_matches_key user_id)).
    + apply NoDup_singleton.
  - destruct (contract_half_unique env (tenant_id t) test_wallet w w Hc)
      as (w' & -> & Ht' & Hc').
    exists w'. split; [reflexivity|]. split; [now rewrite Ht' | exact Hc'].
  - simpl in Hle. lia.
Qed.

Lemma ensure_test_user_keeps_unique_aux (env : Env) (user_id test_wallet : string)
    (w : world) :
  db_unique w -> exists w', ensure_test_user env user_id test_wallet w = (Return tt, w').
Proof.
  intros H. destruct (ensure_test_user_unique env user_id test_wallet w H) as (w' & E & _).
  now exists w'.
Qed.

(** On a database that respects the schema's uniqueness the tenant step
    never raises, and it leaves the database respecting it. *)
Theorem ensure_test_user_keeps_unique (env : Env) (user_id test_wallet : string)
    (w : world) :
  db_unique w ->
  exists w', ensure_test_user env user_id test_wallet w = (Return tt, w') /\ db_unique w'.
Proof. apply ensure_test_user_unique. Qed.

Lemma ensure_test_user_keeps_unique_empty :
  exists w',
    ensure_test_user (Demo.lab_env (Return [])) "TEST_USER_001" "0xaa" Demo.empty_world
      = (Return tt, w') /\ db_unique w'.
Proof.
  apply (ensure_test_user_keeps_unique (Demo.lab_env (Return [])) "TEST_USER_001" "0xaa"
           Demo.empty_world).
  split; constructor.
Defined.

(** The tenant step raises only over rows that break the uniqueness: the
    exception is the multiple-rows one, every table is as before (a
    tenant row inserted before the contract query is rolled back), no
    log line or request is made, and at most the one uuid drawn for the
    rolled-back tenant is spent. *)
Theorem ensure_test_user_raises (env : Env) (user_id test_wallet : string)
    (w w' : world) (e : exn) :
  ensure_test_user env user_id test_wallet w = (Raise e, w') ->
  e = multiple_rows /\ ~ db_unique w /\
  tenants w' = tenants w /\ contracts w' = contracts w /\ signals w' = signals w /\
  log w' = log w /\ http_requests w' = http_requests w /\
  (uuid_count w <= uuid_count w' <= S (uuid_count w))%nat.
Proof.
  intros H.
  assert (Hnu : ~ db_unique w).
  { intros Hu. destruct (ensure_test_user_keeps_unique_aux env user_id test_wallet w Hu)
      as (w'' & E). rewrite E in H. discriminate. }
  revert H. rewrite ensure_test_user_eq. unfold contract_half.
  destruct (List.filter (tenant_matches user_id) (tenants w)) as [|t [|t' ts]].
  - destruct (List.filter _ _) as [|c [|c' cs]]; intros [= <- <-];
      repeat split; try assumption; simpl; lia.
  - destruct (List.filter _ _) as [|c [|c' cs]]; intros [= <- <-];
      repeat split; try assumption; simpl; lia.
  - intros [= <- <-]. repeat split; try assumption; lia.
Qed.

(** Two tenants registered under one email. *)
Definition twin_world : world := {|
  tenants := [ {| tenant_id := "t1"; tenant_email := "TEST_USER_001";
                  tenant_stripe_customer_id := None; tenant_created_at := 0 |};
               {| tenant_id := "t2"; tenant_email := "TEST_USER_001";
                  tenant_stripe_customer_id := None; tenant_created_at := 1 |} ];
  contracts := []; signals := []; http_requests := []; log := []; uuid_count := 0
|}.

Lemma ensure_test_user_raises_twins :
  ensure_test_user (Demo.lab_env (Return [])) "TEST_USER_001" "0xaa" twin_world
    = (Raise multiple_rows, twin_world) /\ ~ db_unique twin_world.
Proof.
  assert (E : ensure_test_user (Demo.lab_env (Return [])) "TEST_USER_001" "0xaa" twin_world
              = (Raise multiple_rows, twin_world)) by reflexivity.
  split; [exact E|].
  apply (ensure_test_user_raises (Demo.lab_env (Return [])) "TEST_USER_001" "0xaa"
           twin_world twin_world multiple_rows E).
Defined.

(** *** [get_or_create_signal] *)

(** The row [get_or_create_signal] writes for the uuid drawn in [w]. *)
Definition placeholder_signal (env : Env) (intent : Intent) (w : world) : SignalRow :=
  {| signal_id := uuid_str (uuid4_nth env (uuid_count w));
     signal_symbol := intent_symbol intent;
     signal_score := 1; signal_p := 9 # 10; signal_e := 9 # 10;
     signal_r := 9 # 10; signal_v := 9 # 10;
     signal_created_at := now env |}.


End TenantFacts.

(** ** Dispatch in every configuration *)

Module DispatchFacts.
Import Executor MonadFacts PipelineFacts.

Lemma get_web3_configured (env : Env) (w : world) :
  unconfigured (cfg env) = false ->
  exists url, _get_web3 env w = (Return (Some url), w) /\ truthy (RELAYER_PK (cfg env)) = true.
Proof.
  unfold unconfigured, _get_web3. intros H.
  apply orb_false_iff in H as [H1 H2]. rewrite H1, H2.
  apply negb_false_iff in H1. apply andb_true_iff in H1 as [H1 _].
  apply andb_true_iff in H1 as [Hu Hk].
  destruct (ARBITRUM_RPC_URL (cfg env)) as [url|]; [|discriminate].
  exists url. now split.
Qed.

(** The relayer key as the configured branch passes it to web3. *)
Definition relayer_key (env : Env) : string := default "" (RELAYER_PK (cfg env)).

Lemma dispatch_cases
    (env : Env) (symbol direction : string) (size : SizeInfo) (w : world) :
  let fake_tx := "0xSTUB-" ++ uuid_hex (uuid4_nth env (uuid_count w)) in
  (exists warning,
     unconfigured (cfg env) = true /\
     execute_onchain_trade env symbol direction size w
       = (Return fake_tx,
          add_log (LogStub symbol direction size fake_tx)
                  (bump_uuid (add_log (LogWarning warning) w)))) \/
  (exists acct,
     unconfigured (cfg env) = false /\
     account_from_key env (relayer_key env) = Return acct /\
     execute_onchain_trade env symbol direction size w
       = (Return fake_tx, add_log (LogStubWeb3 symbol direction size fake_tx) (bump_uuid w))) \/
  (exists e,
     unconfigured (cfg env) = false /\
     account_from_key env (relayer_key env) = Raise e /\
     execute_onchain_trade env symbol direction size w = (Raise e, w)).
Proof.
  cbv zeta. destruct (unconfigured (cfg env)) eqn:Hu.
  - left. destruct (execute_onchain_trade_unconfigured env symbol direction size w Hu)
      as (warning & E).
    exists warning. now split.
  - right. destruct (get_web3_configured env w Hu) as (url & Hw & _).
    unfold execute_onchain_trade. rewrite (bind_return _ _ _ _ _ Hw).
    unfold mbind at 1. unfold M_bind at 1. unfold lift_py. fold (relayer_key env).
    destruct (account_from_key env (relayer_key env)) as [acct|e].
    + left. exists acct. now repeat split.
    + right. exists e. now repeat split.
Qed.

(** Every way [execute_onchain_trade] can end.  It returns the stub
    handle built from the next uuid whether or not the settlement side is
    configured: nothing is ever submitted, the tables and the
    requests stay as they were, one uuid is drawn, and the log gets the
    stub line (after the warning when unconfigured).  It raises only when
    configured and web3 rejects the relayer key, before any effect. *)
Theorem execute_onchain_trade_outcomes
    (env : Env) (symbol direction : string) (size : SizeInfo) (w : world) :
  let fake_tx := "0xSTUB-" ++ uuid_hex (uuid4_nth env (uuid_count w)) in
  (exists warning,
     unconfigured (cfg env) = true /\
     execute_onchain_trade env symbol direction size w
       = (Return fake_tx,
          add_log (LogStub symbol direction size fake_tx)
                  (bump_uuid (add_log (LogWarning warning) w)))) \/
  (exists acct,
     unconfigured (cfg env) = false /\
     account_from_key env (relayer_key env) = Return acct /\
     execute_onchain_trade env symbol direction size w
       = (Return fake_tx, add_log (LogStubWeb3 symbol direction size fake_tx) (bump_uuid w))) \/
  (exists e,
     unconfigured (cfg env) = false /\
     account_from_key env (relayer_key env) = Raise e /\
     execute_onchain_trade env symbol direction size w = (Raise e, w)).
Proof. apply dispatch_cases. Qed.

(** Whether dispatch returns depends on the environment alone, and a
    returned handle is never a transaction hash. *)
Lemma execute_onchain_trade_returns (env : Env) (symbol direction : string)
    (size : SizeInfo) (w w' : world) (tx : string) :
  execute_onchain_trade env symbol direction size w = (Return tx, w') ->
  tx = "0xSTUB-" ++ uuid_hex (uuid4_nth env (uuid_count w)) /\
  uuid_count w' = S (uuid_count w) /\
  tenants w' = tenants w /\ contracts w' = contracts w /\ signals w' = signals w /\
  http_requests w' = http_requests w /\
  forall symbol0 direction0 size0 w0, exists w0',
    execute_onchain_trade env symbol0 direction0 size0 w0
      = (Return ("0xSTUB-" ++ uuid_hex (uuid4_nth env (uuid_count w0))), w0').
Proof.
  intros H.
  destruct (dispatch_cases env symbol direction size w)
    as [(warning & Hu & E) | [(acct & Hu & Hk & E) | (e & Hu & Hk & E)]];
    rewrite E in H; [| |discriminate]; injection H as <- <-;
    (repeat split; [intros symbol0 direction0 size0 w0]).
  - destruct (dispatch_cases env symbol0 direction0 size0 w0)
      as [(? & _ & E0) | [(? & Hu0 & _) | (? & Hu0 & _)]]; [eauto | congruence..].
  - destruct (dispatch_cases env symbol0 direction0 size0 w0)
      as [(? & Hu0 & _) | [(? & _ & _ & E0) | (? & _ & Hk0 & _)]];
      [congruence | eauto | congruence].
Qed.

End DispatchFacts.

(** ** Completed runs of the intent pipeline *)

Module RunFacts.
Import Executor MonadFacts OracleFacts PipelineFacts TenantFacts DispatchFacts.

(** What price resolution answers does not depend on the world. *)
Lemma fetch_answer (env : Env) (symbol : string) (w : world) :
  fetch_pyth_price env symbol w =
    ((fetch_pyth_price env symbol Demo.empty_world).1,
     match PYTH_FEEDS !! symbol with
     | Some id => add_request (hermes_url env, [id]) w
     | None => w
     end).
Proof.
  destruct (PYTH_FEEDS !! symbol) as [id|] eqn:F.
  - rewrite !(fetch_known _ _ _ _ F). cbv zeta.
    destruct (hermes env (hermes_url env) [id]) as [[|item rest]|e];
      [| destruct (mantissa item) |]; reflexivity.
  - now rewrite !(fetch_unknown _ _ _ F).
Qed.

(** A completed run, taken apart: the worlds between its steps and what
    each step gave. *)
Inductive completed (env : Env) (intent : Intent) (w w' : world) (res : IntentResult)
    : Prop :=
| Completed (w1 : world) (id : string) (price : Q) (size : SizeInfo) (w4 : world)
    (c_wallet : test_wallet_of (cfg env) <> "")
    (c_tenant : tenant_step env intent w = (Return tt, w1))
    (c_feed : PYTH_FEEDS !! intent_symbol intent = Some id)
    (c_fetch :
       fetch_pyth_price env (intent_symbol intent) (signal_stored env intent w1).2
         = (Return price, add_request (hermes_url env, [id]) (signal_stored env intent w1).2))
    (c_sized :
       compute_position_size (cfg env) (get_equity_for_user (user_id_of intent))
         (intent_risk_pct intent) price (intent_symbol intent) = Return size)
    (c_dispatch :
       execute_onchain_trade env (intent_symbol intent) (intent_direction intent) size
         (add_request (hermes_url env, [id]) (signal_stored env intent w1).2)
         = (Return (res_tx_hash res), w4))
    (c_res :
       res = result_of env intent (signal_stored env intent w1).1 size (res_tx_hash res) w4)
    (c_world : w' = bump_uuid w4).

Lemma run_inversion (env : Env) (intent : Intent) (w w' : world) (res : IntentResult) :
  process_trade_intent env intent w = (Return res, w') -> completed env intent w w' res.
Proof.
  intros H.
  destruct (String.eqb (test_wallet_of (cfg env)) "") eqn:Hw.
  { apply String.eqb_eq in Hw.
    rewrite (process_trade_intent_no_wallet _ _ _ Hw) in H. discriminate. }
  apply String.eqb_neq in Hw.
  destruct (tenant_step env intent w) as [[[]|e] w1] eqn:H1.
  2: { rewrite (process_trade_intent_tenant_raises _ _ _ _ _ Hw H1) in H. discriminate. }
  rewrite (process_trade_intent_run _ _ _ _ _ Hw H1) in H. unfold run_from in H.
  destruct (PYTH_FEEDS !! intent_symbol intent) as [id|] eqn:F.
  2: { rewrite (fetch_unknown _ _ _ F) in H. discriminate. }
  pose proof (fetch_answer env (intent_symbol intent) (signal_stored env intent w1).2) as Hf.
  rewrite F in Hf.
  destruct (fetch_pyth_price env (intent_symbol intent) Demo.empty_world).1
    as [price|e] eqn:Ha; rewrite Hf in H; simpl in H; [|discriminate].
  destruct (compute_position_size _ _ _ price _) as [size|e] eqn:Hs; [|discriminate].
  destruct (execute_onchain_trade _ _ _ size _) as [[tx|e] w4] eqn:Hd; [|discriminate].
  injection H as <- <-.
  now apply (Completed env intent w _ _ w1 id price size w4).
Qed.

Lemma tenant_step_frame (env : Env) (intent : Intent) (w w1 : world) (r : py unit) :
  tenant_step env intent w = (r, w1) ->
  log w1 = log w /\ http_requests w1 = http_requests w /\ signals w1 = signals w.
Proof. apply ensure_test_user_frame. Qed.

(** The effects of a completed run, read off its parts. *)
Lemma completed_effects (env : Env) (intent : Intent) (w w' : world) (res : IntentResult) :
  completed env intent w w' res ->
  exists w1 id,
    tenant_step env intent w = (Return tt, w1) /\
    PYTH_FEEDS !! intent_symbol intent = Some id /\
    signals w' = (signals w ++ [placeholder_signal env intent w1])%list /\
    http_requests w' = (http_requests w ++ [(hermes_url env, [id])])%list /\
    tenants w' = tenants w1 /\ contracts w' = contracts w1 /\
    uuid_count w' = (uuid_count w1 + 3)%nat /\
    res_signal_id res = uuid_str (uuid4_nth env (uuid_count w1)) /\
    res_tx_hash res = "0xSTUB-" ++ uuid_hex (uuid4_nth env (S (uuid_count w1))) /\
    res_intent_id res = uuid_str (uuid4_nth env (S (S (uuid_count w1)))).
Proof.
  intros [w1 id price size w4 Hw H1 Hf Hp Hs Hd Hr ->].
  destruct (tenant_step_frame _ _ _ _ _ H1) as (_ & Hrq & Hsg).
  apply execute_onchain_trade_returns in Hd as (Htx & Hu & Ht & Hc & Hsig & Hreq & _).
  exists w1, id. simpl in *.
  split; [exact H1|]. split; [exact Hf|].
  split; [now rewrite Hsig, Hsg|]. split; [now rewrite Hreq, Hrq|].
  split; [exact Ht|]. split; [exact Hc|]. split; [lia|].
  rewrite Hr. simpl. split; [reflexivity|]. split; [exact Htx|]. now rewrite Hu.
Qed.

(** What a returned record means.  Whenever [process_trade_intent]
    returns, the record echoes symbol, user (the test user when the
    intent names none) and risk fraction; its equity and price are
    those of its size record, whose equity is the fixed 10000 and whose
    ceiling is the one of the symbol's class; the handle is a stub; the
    run has stored exactly one new signal row, sent exactly one request
    for the symbol's feed, and drawn three uuids in a row after the
    tenant step for the signal id, the handle and the intent id. *)
Theorem process_trade_intent_returned (env : Env) (intent : Intent) (w w' : world)
    (res : IntentResult) :
  process_trade_intent env intent w = (Return res, w') ->
  (res_symbol res = intent_symbol intent /\
   res_user_id res = user_id_of intent /\
   res_risk_pct res = intent_risk_pct intent /\
   res_status res = "RECEIVED" /\ res_message res = "intent accepted") /\
  (res_equity res = equity (res_size res) /\
   res_price res = price (res_size res) /\
   equity (res_size res) = 10000 /\
   max_leverage (res_size res) = _max_leverage_for (cfg env) (intent_symbol intent) /\
   is_tx_hash (res_tx_hash res) = false) /\
  exists w1 id,
    tenant_step env intent w = (Return tt, w1) /\
    PYTH_FEEDS !! intent_symbol intent = Some id /\
    signals w' = (signals w ++ [placeholder_signal env intent w1])%list /\
    http_requests w' = (http_requests w ++ [(hermes_url env, [id])])%list /\
    tenants w' = tenants w1 /\ contracts w' = contracts w1 /\
    uuid_count w' = (uuid_count w1 + 3)%nat /\
    res_signal_id res = uuid_str (uuid4_nth env (uuid_count w1)) /\
    res_tx_hash res = "0xSTUB-" ++ uuid_hex (uuid4_nth env (S (uuid_count w1))) /\
    res_intent_id res = uuid_str (uuid4_nth env (S (S (uuid_count w1)))).
Proof.
  intros H. apply run_inversion in H.
  pose proof (completed_effects _ _ _ _ _ H) as He.
  split; [|split; [|exact He]].
  - destruct H as [w1 id price size w4 Hw H1 Hf Hp Hs Hd Hr ->]. rewrite Hr.
    now repeat split.
  - destruct He as (w1' & id' & _ & _ & _ & _ & _ & _ & _ & _ & Htx & _).
    destruct H as [w1 id price size w4 Hw H1 Hf Hp Hs Hd Hr ->].
    assert (Hsz : size = SizerFacts.sized (cfg env) 10000 (intent_risk_pct intent) price
                           (intent_symbol intent)).
    { unfold get_equity_for_user in Hs.
      destruct (SizerFacts.compute_position_size_cases (cfg env) 10000
                  (intent_risk_pct intent) price (intent_symbol intent))
        as [[_ E] | [_ E]]; rewrite E in Hs; [discriminate | now injection Hs]. }
    assert (Eq : res_size res = size) by (rewrite Hr; reflexivity).
    rewrite Eq.
    split; [rewrite Hr; reflexivity|]. split; [rewrite Hr; reflexivity|].
    split; [now rewrite Hsz|]. split; [now rewrite Hsz|].
    rewrite Htx. apply stub_is_not_tx_hash.
Qed.

Lemma process_trade_intent_returned_btcusd :
  exists res w',
    process_trade_intent (Demo.lab_env (Return [Demo.btc_item])) Demo.btc_intent
      Demo.empty_world = (Return res, w') /\
    res_user_id res = "TEST_USER_001" /\ res_equity res = 10000 /\
    length (signals w') = 1%nat /\ length (http_requests w') = 1%nat /\
    uuid_count w' = 5%nat.
Proof.
  do 2 eexists. split; [vm_compute; reflexivity|].
  edestruct (process_trade_intent_returned (Demo.lab_env (Return [Demo.btc_item]))
               Demo.btc_intent Demo.empty_world)
    as ((_ & Hu & _) & (He & _ & He' & _) & _); [vm_compute; reflexivity|].
  split; [exact Hu|]. split; [now rewrite He, He'|]. vm_compute. repeat split.
Defined.

(** *** Submitting the same intent again *)





(** *** Runs that stop early *)

(** A symbol without a registered feed fails the run with the
    unknown-symbol error and without any request to Hermes, but only
    after steps 1 and 2: the signal row for the unpriceable symbol stays
    in the table. *)
Theorem unknown_symbol_run (env : Env) (intent : Intent) (w w1 : world) :
  test_wallet_of (cfg env) <> "" ->
  tenant_step env intent w = (Return tt, w1) ->
  PYTH_FEEDS !! intent_symbol intent = None ->
  exists w',
    process_trade_intent env intent w
      = (Raise (ValueError ("no pyth feed configured for symbol=" ++ intent_symbol intent)),
         w') /\
    pipeline_trace env intent w
      = [RECEIVED;
         FAILED (ValueError ("no pyth feed configured for symbol=" ++ intent_symbol intent))] /\
    http_requests w' = http_requests w /\ log w' = log w /\
    signals w' = (signals w ++ [placeholder_signal env intent w1])%list.
Proof.
  intros Hw H1 Hf.
  destruct (tenant_step_frame _ _ _ _ _ H1) as (Hl & Hr & Hs).
  exists (signal_stored env intent w1).2.
  rewrite (process_trade_intent_run _ _ _ _ _ Hw H1), (pipeline_trace_run _ _ _ _ _ Hw H1).
  unfold run_from, trace_from. rewrite (fetch_unknown _ _ _ Hf).
  split; [reflexivity|]. split; [reflexivity|]. simpl.
  split; [exact Hr|]. split; [exact Hl|]. now rewrite Hs.
Qed.

(** USATECHIDXUSD, listed in [SYMBOL_UNIVERSE], has no feed. *)
Definition usatech_intent : Intent := {|
  intent_user_id := Some "alice";
  intent_symbol := "USATECHIDXUSD";
  intent_risk_pct := 8 # 1000;
  intent_direction := "SHORT"
|}.

Lemma unknown_symbol_run_usatech :
  exists w',
    process_trade_intent (Demo.lab_env (Return [Demo.btc_item])) usatech_intent
      Demo.empty_world
      = (Raise (ValueError "no pyth feed configured for symbol=USATECHIDXUSD"), w') /\
    http_requests w' = [] /\ length (signals w') = 1%nat.
Proof.
  edestruct (unknown_symbol_run (Demo.lab_env (Return [Demo.btc_item])) usatech_intent
               Demo.empty_world) as (w' & H & _ & Hr & _ & Hs);
    [discriminate | vm_compute; reflexivity | vm_compute; reflexivity |].
  exists w'. split; [exact H|]. split; [exact Hr|]. now rewrite Hs.
Defined.

End RunFacts.

(** ** The feed registry and the request URL *)

Module RegistryFacts.
Import Executor OracleFacts.

(** A Pyth feed identifier: [0x] and 64 hexadecimal digits. *)
Definition is_feed_id (id : string) : bool :=
  match id with
  | String "0" (String "x" rest) => all_hex rest && (String.length rest =? 64)%nat
  | _ => false
  end.

Lemma feeds_wellformed (symbol id : string) :
  PYTH_FEEDS !! symbol = Some id -> is_feed_id id = true /\ symbol ∈ COSCIENZA_SYMBOLS_V3.
Proof.
  intros H. unfold PYTH_FEEDS in H.
  apply elem_of_list_to_map_2 in H.
  repeat (apply elem_of_cons in H as [H | H];
          [injection H as -> ->; split;
           [vm_compute; reflexivity | apply (bool_decide_unpack _); vm_compute; exact I] |]).
  now apply elem_of_nil in H.
Qed.

Lemma v3_registered (symbol : string) :
  symbol ∈ COSCIENZA_SYMBOLS_V3 -> is_Some (PYTH_FEEDS !! symbol).
Proof.
  intros H. unfold COSCIENZA_SYMBOLS_V3 in H.
  repeat (apply elem_of_cons in H as [-> | H]; [vm_compute; eauto |]).
  now apply elem_of_nil in H.
Qed.

(** The feed of each symbol is its own: the table read backwards. *)
Definition symbol_of_feed (id : string) : option string :=
  fst <$> List.find (fun kv => String.eqb kv.2 id) (map_to_list PYTH_FEEDS).

Lemma feeds_distinct (symbol id : string) :
  PYTH_FEEDS !! symbol = Some id -> symbol_of_feed id = Some symbol.
Proof.
  intros H. unfold PYTH_FEEDS in H.
  apply elem_of_list_to_map_2 in H.
  repeat (apply elem_of_cons in H as [H | H];
          [injection H as -> ->; vm_compute; reflexivity |]).
  now apply elem_of_nil in H.
Qed.

(** The registry is exactly the v3 universe: a symbol has a feed if and
    only if it is one of [COSCIENZA_SYMBOLS_V3]; every feed identifier
    is [0x] followed by 64 hexadecimal digits; no two symbols share a
    feed.  Of [SYMBOL_UNIVERSE] every symbol but USATECHIDXUSD has a feed,
    and price resolution for that one raises the unknown-symbol error. *)
Theorem feed_registry (symbol : string) :
  (is_Some (PYTH_FEEDS !! symbol) <-> symbol ∈ COSCIENZA_SYMBOLS_V3) /\
  (forall id, PYTH_FEEDS !! symbol = Some id ->
     is_feed_id id = true /\
     forall symbol', PYTH_FEEDS !! symbol' = Some id -> symbol' = symbol) /\
  (symbol ∈ SYMBOL_UNIVERSE ->
     (is_Some (PYTH_FEEDS !! symbol) <-> symbol <> "USATECHIDXUSD")) /\
  (forall env w,
     symbol ∉ COSCIENZA_SYMBOLS_V3 ->
     fetch_pyth_price env symbol w
       = (Raise (ValueError ("no pyth feed configured for symbol=" ++ symbol)), w)).
Proof.
  assert (Hiff : is_Some (PYTH_FEEDS !! symbol) <-> symbol ∈ COSCIENZA_SYMBOLS_V3).
  { split; [intros [id H]; now apply (feeds_wellformed _ _ H) | apply v3_registered]. }
  split; [exact Hiff|]. split; [|split].
  - intros id H. split; [now apply (feeds_wellformed _ _ H)|].
    intros symbol' H'. apply feeds_distinct in H, H'. congruence.
  - intros Hu. rewrite Hiff. unfold SYMBOL_UNIVERSE in Hu.
    repeat (apply elem_of_cons in Hu as [-> | Hu];
            [split; [intros _; discriminate
                    | intros _; apply (bool_decide_unpack _); vm_compute; exact I] |]).
    apply elem_of_cons in Hu as [-> | Hu].
    { split; [|congruence]. intros H. exfalso. revert H.
      apply (bool_decide_unpack _). vm_compute. exact I. }
    repeat (apply elem_of_cons in Hu as [-> | Hu];
            [split; [intros _; discriminate
                    | intros _; apply (bool_decide_unpack _); vm_compute; exact I] |]).
    now apply elem_of_nil in Hu.
  - intros env w Hn. apply fetch_unknown.
    destruct (PYTH_FEEDS !! symbol) as [id|] eqn:E; [|reflexivity].
    exfalso. apply Hn, Hiff. eauto.
Qed.

(** *** Trailing slashes *)

Fixpoint slashes (n : nat) : string :=
  match n with
  | O => ""
  | S n => String "/" (slashes n)
  end.

Fixpoint last_char (s : string) : option ascii :=
  match s with
  | EmptyString => None
  | String c EmptyString => Some c
  | String _ rest => last_char rest
  end.

Lemma rstrip_slashes (n : nat) : rstrip_slash (slashes n) = "".
Proof. induction n as [|n IH]; [reflexivity|]. simpl. now rewrite IH. Qed.

Lemma rstrip_decompose (s : string) : exists n, s = rstrip_slash s ++ slashes n.
Proof.
  induction s as [|c rest [n IH]]; [now exists 0%nat|]. simpl.
  destruct (rstrip_slash rest) as [|d r] eqn:E.
  - simpl in IH. destruct (Ascii.eqb_spec c "/") as [-> | Hc].
    + exists (S n). simpl. now rewrite IH.
    + exists n. simpl. now rewrite IH.
  - exists n. simpl. now rewrite IH at 1.
Qed.

Lemma rstrip_no_slash (s : string) : last_char (rstrip_slash s) <> Some "/"%char.
Proof.
  induction s as [|c rest IH]; [discriminate|]. simpl.
  destruct (rstrip_slash rest) as [|d r] eqn:E.
  - destruct (Ascii.eqb_spec c "/") as [-> | Hc]; [discriminate|].
    simpl. congruence.
  - exact IH.
Qed.

Lemma rstrip_fixed (s : string) : last_char s <> Some "/"%char -> rstrip_slash s = s.
Proof.
  induction s as [|c rest IH]; [reflexivity|]. intros H. simpl.
  destruct rest as [|d r].
  - simpl. destruct (Ascii.eqb_spec c "/") as [-> | Hc]; [now destruct H | reflexivity].
  - rewrite IH by exact H. reflexivity.
Qed.

Lemma rstrip_append_slashes (s : string) (n : nat) :
  rstrip_slash (s ++ slashes n) = rstrip_slash s.
Proof.
  induction s as [|c rest IH]; simpl; [apply rstrip_slashes | now rewrite IH].
Qed.

(** The request URL never has a doubled slash at the join: whatever
    trailing slashes the configured base carries, the URL is the base
    without them followed by the path, so bases that differ only in
    trailing slashes give the same URL, and stripping is idempotent. *)
Theorem hermes_url_normalised (env : Env) :
  (exists base n,
     PYTH_HERMES_URL (cfg env) = base ++ slashes n /\
     last_char base <> Some "/"%char /\
     hermes_url env = base ++ "/api/latest_price_feeds") /\
  (forall env' n,
     PYTH_HERMES_URL (cfg env') = PYTH_HERMES_URL (cfg env) ++ slashes n ->
     hermes_url env' = hermes_url env) /\
  rstrip_slash (rstrip_slash (PYTH_HERMES_URL (cfg env)))
    = rstrip_slash (PYTH_HERMES_URL (cfg env)).
Proof.
  split; [|split].
  - destruct (rstrip_decompose (PYTH_HERMES_URL (cfg env))) as [n Hn].
    exists (rstrip_slash (PYTH_HERMES_URL (cfg env))), n.
    split; [exact Hn|]. split; [apply rstrip_no_slash | reflexivity].
  - intros env' n H. unfold hermes_url. now rewrite H, rstrip_append_slashes.
  - apply rstrip_fixed, rstrip_no_slash.
Qed.

End RegistryFacts.

(** ** The endpoints of the coordinator *)

Module EndpointFacts.
Import Coordinator.

(** The four variables [_project_id] tries, in order. *)
Definition project_vars : list string :=
  ["GOOGLE_CLOUD_PROJECT"; "GCP_PROJECT"; "PROJECT_ID"; "COSCIENZA_PROJECT_ID"].

Lemma project_id_truthy (environ : gmap string string) :
  truthy (_project_id environ) = existsb (fun name => truthy (environ !! name)) project_vars.
Proof.
  unfold _project_id, py_or, project_vars. simpl.
  destruct (truthy (environ !! "GOOGLE_CLOUD_PROJECT")) eqn:E1; simpl; rewrite ?E1; simpl;
    [reflexivity|].
  destruct (truthy (environ !! "GCP_PROJECT")) eqn:E2; simpl; rewrite ?E2; simpl;
    [reflexivity|].
  destruct (truthy (environ !! "PROJECT_ID")) eqn:E3; simpl; rewrite ?E3; simpl;
    [reflexivity|].
  now rewrite orb_false_r.
Qed.

(** [_project_id] is the value of the first of the four variables that
    is set to a non-empty string. *)
Lemma project_id_first (environ : gmap string string) (name : string) (before : list string) :
  (exists after, project_vars = (before ++ name :: after)%list) ->
  Forall (fun n => truthy (environ !! n) = false) before ->
  truthy (environ !! name) = true ->
  _project_id environ = environ !! name.
Proof.
  intros [after E] Hb Hn. unfold project_vars in E. unfold _project_id, py_or.
  destruct before as [|b1 [|b2 [|b3 [|b4 before]]]]; simplify_eq/=.
  - repeat (progress (cbv iota; rewrite ?Hn)). reflexivity.
  - apply Forall_cons in Hb as [H1 _].
    repeat (progress (cbv iota; rewrite ?H1, ?Hn)). reflexivity.
  - apply Forall_cons in Hb as [H1 Hb]. apply Forall_cons in Hb as [H2 _].
    repeat (progress (cbv iota; rewrite ?H1, ?H2, ?Hn)). reflexivity.
  - apply Forall_cons in Hb as [H1 Hb]. apply Forall_cons in Hb as [H2 Hb].
    apply Forall_cons in Hb as [H3 _].
    repeat (progress (cbv iota; rewrite ?H1, ?H2, ?H3)). reflexivity.
  - destruct before; discriminate.
Qed.

(** An empty GOOGLE_CLOUD_PROJECT is skipped and GCP_PROJECT wins over
    PROJECT_ID. *)
Definition some_environ : gmap string string :=
  list_to_map [("GOOGLE_CLOUD_PROJECT", ""); ("PROJECT_ID", "third"); ("GCP_PROJECT", "second")].

Lemma project_id_first_example : _project_id some_environ = Some "second".
Proof.
  rewrite (project_id_first some_environ "GCP_PROJECT" ["GOOGLE_CLOUD_PROJECT"]).
  - vm_compute. reflexivity.
  - now exists ["PROJECT_ID"; "COSCIENZA_PROJECT_ID"].
  - repeat constructor.
  - vm_compute. reflexivity.
Defined.

Lemma mock_picks_empty :
  rank_and_risk (mock_coscienza_score (mock_radar SYMBOLS)
                   (mock_pyth_prices (mock_radar SYMBOLS))) 3 = [].
Proof. vm_compute. reflexivity. Qed.

(** The tick as written never reaches the tenants or the task queue.
    Whatever steps 5 and 6 would do, the answer is the 500 for a missing
    project when none of the four project variables is set to a non-empty
    string, and otherwise the 200 reporting zero tenants and zero
    signals: every mock candidate falls to the veto. *)
Theorem tick_response (environ : gmap string string) (steps_5_6 : odict Signal -> py string) :
  tick environ steps_5_6 =
    if existsb (fun name => truthy (environ !! name)) project_vars
    then {| content := "tick-queued(0 tenants, 0 signals)"; status_code := 200 |}
    else {| content := "tick-error: Missing project id env"; status_code := 500 |}.
Proof.
  unfold tick. cbv zeta. rewrite project_id_truthy.
  destruct (existsb _ project_vars); [|reflexivity].
  simpl negb. cbv iota.
  rewrite mock_picks_empty. reflexivity.
Qed.

(** *** [/pyth/price] *)

(** The identifier check both handlers start with. *)
Definition valid_id (id : string) : bool :=
  startswith_0x id && negb (len id <? 10)%nat.

Lemma invalid_guard (id : string) :
  negb (startswith_0x id) || (len id <? 10)%nat = negb (valid_id id).
Proof. unfold valid_id. now rewrite negb_andb, negb_involutive. Qed.




(** *** The endpoint and the executor's oracle *)

Lemma quote_of_mantissa (item : Executor.FeedItem) :
  quote_of item =
    match OracleFacts.mantissa item with
    | Some m => Some (inject_Z m * Qpower 10 (default 0%Z (OracleFacts.exponent item)))
    | None => None
    end.
Proof. destruct item as [[[[m|] ex]|]]; reflexivity. Qed.

Lemma registered_id_valid (symbol id : string) :
  Executor.PYTH_FEEDS !! symbol = Some id -> valid_id id = true.
Proof.
  intros H. unfold Executor.PYTH_FEEDS in H.
  apply elem_of_list_to_map_2 in H.
  repeat (apply elem_of_cons in H as [H | H]; [injection H as -> ->; vm_compute; reflexivity |]).
  now apply elem_of_nil in H.
Qed.

(** For the feed of a registered symbol the endpoint and
    [fetch_pyth_price], given the same base URL and the same Hermes, see
    the same answer: the identifier passes the endpoint's check; the
    executor returns a price exactly when the endpoint quotes that price;
    where the endpoint answers "not found" or quotes no price (still
    with [ok] true) the executor raises its feed errors; and an exception
    the endpoint turns into a 502 or lets escape is the one the executor
    raises. *)
Theorem oracle_agreement (env : Executor.Env) (symbol id : string) (w : Executor.world) :
  Executor.PYTH_FEEDS !! symbol = Some id ->
  let reply :=
    pyth_price_1 (Executor.PYTH_HERMES_URL (Executor.cfg env)) (Executor.hermes env) id in
  let run := (Executor.fetch_pyth_price env symbol w).1 in
  valid_id id = true /\
  (forall q, run = Return q <-> exists item, reply = Respond (Quote id (Some q) item)) /\
  (reply = Respond (NotFound id) ->
     run = Raise (RuntimeError ("pyth price not found for symbol=" ++ symbol))) /\
  (forall item, reply = Respond (Quote id None item) ->
     run = Raise (RuntimeError ("pyth price missing 'price' field for " ++ symbol))) /\
  (forall status detail, reply = HTTPException status detail ->
     exists msg, run = Raise (HTTPError msg) /\ detail = "hermes error: " ++ msg) /\
  (forall e, reply = Escapes e -> run = Raise e).
Proof.
  intros Hf. cbv zeta.
  assert (Hv : valid_id id = true).
  { now apply (registered_id_valid symbol). }
  split; [exact Hv|].
  rewrite (OracleFacts.fetch_known _ _ _ _ Hf). cbv zeta.
  unfold pyth_price_1. rewrite invalid_guard, Hv. simpl negb. cbv iota zeta.
  fold (OracleFacts.hermes_url env).
  destruct (Executor.hermes env (OracleFacts.hermes_url env) [id]) as [[|item rest]|e].
  - simpl. split; [|split; [|split; [|split]]]; try easy.
    intros q. split; [discriminate | now intros [item [=]]].
  - rewrite quote_of_mantissa. destruct (OracleFacts.mantissa item) as [m|]; simpl.
    + split; [|split; [|split; [|split]]]; try easy.
      intros q. split.
      * intros [= <-]. now exists item.
      * now intros [item' [= -> _]].
    + split; [|split; [|split; [|split]]]; try easy.
      intros q. split; [discriminate | now intros [item' [=]]].
  - destruct e as [msg|msg|msg|msg|msg|msg]; simpl;
      (split; [intros q; split; [discriminate | now intros [item [=]]]|]);
      (split; [discriminate|]); (split; [discriminate|]); split; try easy;
      try (now intros e [= <-]).
    intros status detail [= <- <-]. now exists msg.
Qed.

(** BTCUSD through both: 65000 either way. *)
Lemma oracle_agreement_btcusd :
  exists q item,
    (Executor.fetch_pyth_price (Demo.lab_env (Return [Demo.btc_item])) "BTCUSD"
       Demo.empty_world).1 = Return q /\
    pyth_price_1 "https://hermes.pyth.network" (fun _ _ => Return [Demo.btc_item])
      "0xe62df6c8b4a85fe1a67db44dc12de5db330f7ac66b72dc658afedf0f4a415b43"
      = Respond (Quote "0xe62df6c8b4a85fe1a67db44dc12de5db330f7ac66b72dc658afedf0f4a415b43"
                   (Some q) item) /\
    q == 65000.
Proof.
  destruct (oracle_agreement (Demo.lab_env (Return [Demo.btc_item])) "BTCUSD"
              "0xe62df6c8b4a85fe1a67db44dc12de5db330f7ac66b72dc658afedf0f4a415b43"
              Demo.empty_world) as (_ & H & _); [vm_compute; reflexivity|].
  eexists. edestruct H as [[item Hi] _]; [vm_compute; reflexivity|].
  exists item. split; [vm_compute; reflexivity|]. split; [exact Hi|].
  vm_compute. reflexivity.
Defined.

End EndpointFacts.

(** ** The scan of the tick, end to end *)

Module ScanFacts.
Import Coordinator.

(** *** Mock prices *)

(** The table inside [mock_pyth_prices]. *)
Definition base_price (s : string) : Q :=
  if String.eqb s "EURUSD" then 107 # 100
  else if String.eqb s "GBPUSD" then 125 # 100
  else if String.eqb s "USDJPY" then 150
  else if String.eqb s "XAUUSD" then 1995
  else if String.eqb s "BTCUSD" then 65000
  else 1.

Lemma base_lookup (s : string) :
  default 1 ((list_to_map [("EURUSD", 107 # 100); ("GBPUSD", 125 # 100); ("USDJPY", 150);
                           ("XAUUSD", 1995); ("BTCUSD", 65000)] : gmap string Q) !! s)
  = base_price s.
Proof.
  unfold base_price. simpl list_to_map.
  repeat (match goal with
          | |- context [String.eqb s ?k] =>
              destruct (String.eqb_spec s k) as [-> | ?];
              [ vm_compute; reflexivity
              | rewrite lookup_insert_ne by congruence ]
          end).
  now rewrite lookup_empty.
Qed.

Lemma base_price_pos (s : string) : 0 < base_price s.
Proof.
  unfold base_price.
  repeat (match goal with
          | |- context [String.eqb s ?k] => destruct (String.eqb s k); [reflexivity|]
          end).
  reflexivity.
Qed.

Lemma lookup_comprehension (f : string -> Q) (symbols : list string) (s : string) :
  (list_to_map (map (fun s => (s, f s)) symbols) : gmap string Q) !! s
  = if decide (s ∈ symbols) then Some (f s) else None.
Proof.
  induction symbols as [|x symbols IH].
  - simpl. rewrite lookup_empty.
    now destruct (decide (s ∈ [])) as [H|_]; [apply elem_of_nil in H|].
  - simpl.
    destruct (decide (x = s)) as [-> | Hne].
    + rewrite lookup_insert_eq.
      destruct (decide (s ∈ s :: symbols)) as [_|H]; [reflexivity|].
      exfalso. apply H. apply list_elem_of_here.
    + rewrite lookup_insert_ne by exact Hne. rewrite IH.
      destruct (decide (s ∈ symbols)) as [Hin|Hout];
        destruct (decide (s ∈ x :: symbols)) as [Hin'|Hout']; try reflexivity.
      * exfalso. apply Hout'. now apply list_elem_of_further.
      * exfalso. apply elem_of_cons in Hin' as [E|Hin']; [congruence | contradiction].
Qed.

Lemma mock_pyth_prices_lookup (symbols : list string) (s : string) :
  mock_pyth_prices symbols !! s = if decide (s ∈ symbols) then Some (base_price s) else None.
Proof.
  unfold mock_pyth_prices. cbv zeta. rewrite lookup_comprehension.
  destruct (decide (s ∈ symbols)); [|reflexivity]. now rewrite base_lookup.
Qed.

(** [mock_pyth_prices] prices exactly the symbols it is given: a symbol
    of the request gets its price of the table, or 1.0 when the table
    does not have it; a symbol that was not requested has no price; and
    every price is positive.  So the scorer's own default of 1.0 is never
    used on the symbols the prices were built for. *)
Theorem mock_pyth_prices_total (symbols : list string) :
  (forall s, s ∈ symbols -> mock_pyth_prices symbols !! s = Some (base_price s)) /\
  (forall s, s ∉ symbols -> mock_pyth_prices symbols !! s = None) /\
  (forall s x, mock_pyth_prices symbols !! s = Some x -> 0 < x) /\
  (forall s, s ∈ symbols ->
     dict_get (mock_coscienza_score symbols (mock_pyth_prices symbols)) s
     = Some (score_of (base_price s))).
Proof.
  split; [|split; [|split]].
  - intros s H. rewrite mock_pyth_prices_lookup. now destruct (decide (s ∈ symbols)).
  - intros s H. rewrite mock_pyth_prices_lookup. now destruct (decide (s ∈ symbols)).
  - intros s x. rewrite mock_pyth_prices_lookup.
    destruct (decide (s ∈ symbols)); [|discriminate].
    intros [= <-]. apply base_price_pos.
  - intros s H. rewrite ScorerFacts.mock_coscienza_score_fold.
    rewrite (ScorerFacts.loop_get _ _ _ _ H).
    rewrite mock_pyth_prices_lookup. now destruct (decide (s ∈ symbols)).
Qed.

End ScanFacts.
